(** * SheetsManager: append-only reconciliation of scraped profiles

    A shallow embedding of [src/sheets_manager.py]: the retry executor
    [safe_update], the tag resolver ([load_tags_mapping],
    [get_tags_for_nickname]), the audit logger [log_change], the formula
    writer [apply_link_formulas] and the reconciliation routine
    [write_profile], followed by the properties stated about them.

    Modelling conventions.
    - Python [dict]s used as maps are [gmap]s; rows are [list string].
    - Python [str] is [string]; [strip] and [lower] are restricted to the
      ASCII range (the whitespace set is the ASCII part of [str.isspace]).
    - The remote workbook is explicit state.  A remote call either raises
      (with a message, leaving the workbook as it was) or takes effect; which
      one happens is read from a fault plan carried by the state.  Only the
      calls routed through [safe_update] consult the plan; the read
      [get_all_values] is taken to succeed.
    - [time.sleep] and [log_msg] are recorded as events.
    - Constants and helpers imported from [core_scraper] (COLUMN_ORDER,
      LINK_COLUMNS, COLUMN_TO_INDEX, column_letter, clean_data) are the
      fields of a record the definitions take as argument. *)

From Stdlib Require Import Ascii String NArith.
From stdpp Require Import gmap strings list fin_maps.
From stdpp Require Import sorting.

(** ** Python string primitives *)

Module Py.

(** ASCII part of [str.isspace]: TAB, LF, VT, FF, CR, FS, GS, RS, US, SPACE. *)
Definition isspace (c : ascii) : bool :=
  let n := N_of_ascii c in
  ((9 <=? n) && (n <=? 13) || (28 <=? n) && (n <=? 32))%N.

Definition truthy (s : string) : bool :=
  match s with EmptyString => false | String _ _ => true end.

Fixpoint lstrip (s : string) : string :=
  match s with
  | EmptyString => EmptyString
  | String c t => if isspace c then lstrip t else s
  end.

Fixpoint rstrip (s : string) : string :=
  match s with
  | EmptyString => EmptyString
  | String c t =>
      let t' := rstrip t in
      if isspace c && negb (truthy t') then EmptyString else String c t'
  end.

(** [s.strip()] *)
Definition strip (s : string) : string := rstrip (lstrip s).

Definition lower_ascii (c : ascii) : ascii :=
  let n := N_of_ascii c in
  if ((65 <=? n) && (n <=? 90))%N then ascii_of_N (n + 32) else c.

(** [s.lower()] *)
Fixpoint lower (s : string) : string :=
  match s with
  | EmptyString => EmptyString
  | String c t => String (lower_ascii c) (lower t)
  end.

(** [needle in hay] *)
Fixpoint contains (needle hay : string) : bool :=
  String.prefix needle hay ||
  match hay with
  | EmptyString => false
  | String _ t => contains needle t
  end.

(** [sep.join(l)] *)
Fixpoint join (sep : string) (l : list string) : string :=
  match l with
  | [] => EmptyString
  | [x] => x
  | x :: rest => x +:+ sep +:+ join sep rest
  end.

(** [d.get(k)] seen as a truth value: a missing key gives [None]. *)
Definition truthy_get (d : gmap string string) (k : string) : bool :=
  match d !! k with Some v => truthy v | None => false end.

(** [d.get(k, '')] *)
Definition get_or_empty (d : gmap string string) (k : string) : string :=
  default EmptyString (d !! k).

(** [x or ''] *)
Definition or_empty (x : string) : string :=
  if truthy x then x else EmptyString.

End Py.

(** ** Events observable outside the workbook *)

Inductive sleep_arg :=
  | WaitTime (seconds : nat)      (* time.sleep(wait_time) *)
  | SHEET_WRITE_DELAY.            (* time.sleep(SHEET_WRITE_DELAY) *)

Inductive log_line :=
  | RateLimited (wait_time : nat)            (* "Rate limited, waiting {wait_time}s..." *)
  | UpdateFailed (max_retries : nat) (e : string).
                                             (* "Update failed after {max_retries} attempts: {e}" *)

Inductive event :=
  | Sleep (d : sleep_arg)
  | LogMsg (l : log_line).

(** The backoff sleeps of a trace, in order. *)
Definition backoff_sleeps (evs : list event) : list nat :=
  omap (λ ev, match ev with Sleep (WaitTime n) => Some n | _ => None end) evs.

(** The failure log lines of a trace, in order. *)
Definition failure_logs (evs : list event) : list string :=
  omap (λ ev, match ev with LogMsg (UpdateFailed _ e) => Some e | _ => None end) evs.

(** ** Retry/backoff executor: [safe_update] *)

Section Executor.
(** [S] is whatever the wrapped operation acts on, [R] what it returns.
    An operation yields [inl r] when it returns [r] and [inr e] when it
    raises an exception whose text is [e]. *)
Context {S R : Type}.

Definition operation := S → S * (R + string).

(** ['429' in str(e) or 'quota' in str(e).lower()] *)
Definition is_rate_limit (e : string) : bool :=
  Py.contains "429" e || Py.contains "quota" (Py.lower e).

(** The body of [for attempt in range(max_retries)], over the attempts
    still to run.  Falling off the loop returns [None]. *)
Fixpoint safe_update_loop (func : operation) (max_retries : nat)
    (attempts : list nat) (s : S) : S * list event * option R :=
  match attempts with
  | [] => (s, [], None)
  | attempt :: rest =>
      match func s with
      | (s', inl result) => (s', [Sleep SHEET_WRITE_DELAY], Some result)
      | (s', inr e) =>
          if is_rate_limit e then
            let wait_time := (attempt + 1) * 5 in
            let '(s'', evs, r) := safe_update_loop func max_retries rest s' in
            (s'', LogMsg (RateLimited wait_time) :: Sleep (WaitTime wait_time) :: evs, r)
          else if attempt =? max_retries - 1 then
            (s', [LogMsg (UpdateFailed max_retries e)], None)
          else safe_update_loop func max_retries rest s'
      end
  end.

Definition safe_update (func : operation) (max_retries : nat) (s : S)
    : S * list event * option R :=
  safe_update_loop func max_retries (seq 0 max_retries) s.

(** State reached after [n] consecutive calls of [func]. *)
Definition after_calls (func : operation) (n : nat) (s : S) : S :=
  Nat.iter n (λ s, fst (func s)) s.

End Executor.

(** Default of the keyword argument [max_retries]. *)
Definition default_max_retries : nat := 3.

(** The events of one rate-limited attempt. *)
Definition backoff_events (attempt : nat) : list event :=
  [LogMsg (RateLimited ((attempt + 1) * 5)); Sleep (WaitTime ((attempt + 1) * 5))].

(** An operation driven by a script: each call consumes the next outcome;
    once the script is used up the call returns [fallback]. *)
Definition scripted {R} (fallback : R) : @operation (list (R + string)) R :=
  λ script,
    match script with
    | outcome :: rest => (rest, outcome)
    | [] => ([], inl fallback)
    end.

(** ** Tag resolver *)

Section Tags.

(** Body of the inner loop, for one data row:
    [if col_idx < len(row): nickname = row[col_idx].strip(); ...]. *)
Definition tag_cell (tag_name_clean : string) (col_idx : nat)
    (tags_mapping : gmap string string) (row : list string)
    : gmap string string :=
  match row !! col_idx with
  | Some cell =>
      let nickname := Py.strip cell in
      if Py.truthy nickname then
        let nickname_lower := Py.lower nickname in
        match tags_mapping !! nickname_lower with
        | Some old =>
            <[nickname_lower := old +:+ ", " +:+ tag_name_clean]> tags_mapping
        | None => <[nickname_lower := tag_name_clean]> tags_mapping
        end
      else tags_mapping
  | None => tags_mapping
  end.

(** Body of the outer loop, for one header cell. *)
Definition tag_column (rows : list (list string))
    (tags_mapping : gmap string string) (col : nat * string)
    : gmap string string :=
  let '(col_idx, tag_name) := col in
  if negb (Py.truthy tag_name) || negb (Py.truthy (Py.strip tag_name))
  then tags_mapping
  else foldl (tag_cell (Py.strip tag_name) col_idx) tags_mapping rows.

(** [enumerate(l)] *)
Definition enumerate {A} (l : list A) : list (nat * A) := imap pair l.

(** [load_tags_mapping]: [tags_sheet] is [None] when the workbook has
    no Tags table (the attribute access then raises and the handler leaves
    the mapping as it was). *)
Definition load_tags_mapping (tags_sheet : option (list (list string)))
    (tags_mapping : gmap string string) : gmap string string :=
  match tags_sheet with
  | None => tags_mapping
  | Some all_data =>
      if bool_decide (all_data = []) || (length all_data <? 2)
      then tags_mapping
      else
        let headers := default [] (all_data !! 0) in
        foldl (tag_column (drop 1 all_data)) tags_mapping (enumerate headers)
  end.

(** [get_tags_for_nickname] *)
Definition get_tags_for_nickname (tags_mapping : gmap string string)
    (nickname : string) : string :=
  default EmptyString (tags_mapping !! Py.lower nickname).

(** The tag occurrences of an identity, read off the table the way the
    description of the resolver words it: one entry per non-empty cell
    holding the identity, tag columns taken left to right. *)
Definition holds_identity (col_idx : nat) (identity : string)
    (row : list string) : bool :=
  match row !! col_idx with
  | Some cell =>
      Py.truthy (Py.strip cell)
      && bool_decide (Py.lower (Py.strip cell) = identity)
  | None => false
  end.

Definition cell_hits (tag : string) (col_idx : nat) (identity : string)
    (row : list string) : list string :=
  if holds_identity col_idx identity row then [tag] else [].

Definition tag_hits (rows : list (list string)) (identity : string)
    (col : nat * string) : list string :=
  if Py.truthy (Py.strip col.2)
  then flat_map (cell_hits (Py.strip col.2) col.1 identity) rows
  else [].

Definition tags_listed (all_data : list (list string)) (identity : string)
    : list string :=
  flat_map (tag_hits (drop 1 all_data) identity)
           (enumerate (default [] (all_data !! 0))).





End Tags.

(** A Tags table: alice is listed under both tags, in different spellings. *)
Definition sample_tags : list (list string) :=
  [["VIP"; "Flagged"]; ["alice"; "bob"]; ["carol"; " Alice "]].


(** ** The workbook and the manager's state *)

(** A worksheet: the rows written by [append_row] (header included), and
    the cell formulas written by [update] with [USER_ENTERED], each kept
    with the column letter and the row number that make up its A1 name. *)
Record worksheet := {
  ws_rows : list (list string);
  ws_formulas : list (string * nat * string)
}.

(** An entry of [existing_profiles]: [{'row': ..., 'data': ...}]. *)
Record profile_entry := {
  entry_row : nat;
  entry_data : list string
}.

(** The dictionary returned by [write_profile]. *)
Record write_result := {
  status : string;
  error : option string;
  changed_fields : list string
}.

(** The attributes of [SheetsManager] that reconciliation touches, with the
    state of the two worksheets behind the handles.  [faults] is the fault
    plan of the remote store: one entry per remote call still to come,
    [Some e] when that call raises with text [e]; calls beyond the plan
    take effect.  [clock] is the text [get_pkt_time().strftime(...)] gives. *)
Record SheetsManager := {
  profiles_sheet : worksheet;
  log_sheet : option worksheet;
  tags_mapping : gmap string string;
  existing_profiles : gmap string profile_entry;
  faults : list (option string);
  clock : string;
  trace : list event
}.

Definition set_profiles_sheet (ws : worksheet) (self : SheetsManager) :=
  {| profiles_sheet := ws; log_sheet := log_sheet self;
     tags_mapping := tags_mapping self;
     existing_profiles := existing_profiles self;
     faults := faults self; clock := clock self; trace := trace self |}.

Definition set_log_sheet (ws : option worksheet) (self : SheetsManager) :=
  {| profiles_sheet := profiles_sheet self; log_sheet := ws;
     tags_mapping := tags_mapping self;
     existing_profiles := existing_profiles self;
     faults := faults self; clock := clock self; trace := trace self |}.

Definition set_existing_profiles (idx : gmap string profile_entry)
    (self : SheetsManager) :=
  {| profiles_sheet := profiles_sheet self; log_sheet := log_sheet self;
     tags_mapping := tags_mapping self;
     existing_profiles := idx;
     faults := faults self; clock := clock self; trace := trace self |}.

Definition set_faults (plan : list (option string)) (self : SheetsManager) :=
  {| profiles_sheet := profiles_sheet self; log_sheet := log_sheet self;
     tags_mapping := tags_mapping self;
     existing_profiles := existing_profiles self;
     faults := plan; clock := clock self; trace := trace self |}.

Definition add_trace (evs : list event) (self : SheetsManager) :=
  {| profiles_sheet := profiles_sheet self; log_sheet := log_sheet self;
     tags_mapping := tags_mapping self;
     existing_profiles := existing_profiles self;
     faults := faults self; clock := clock self; trace := trace self ++ evs |}.

(** [ws.append_row(values)] *)
Definition ws_append_row (values : list string) (ws : worksheet) : worksheet :=
  {| ws_rows := ws_rows ws ++ [values]; ws_formulas := ws_formulas ws |}.

(** [ws.update(values=[[formula]], range_name=cell, value_input_option='USER_ENTERED')] *)
Definition ws_update (cell : string * nat) (formula : string) (ws : worksheet)
    : worksheet :=
  {| ws_rows := ws_rows ws;
     ws_formulas := ws_formulas ws ++ [(cell.1, cell.2, formula)] |}.

(** A method of a remote worksheet, as an operation on the manager's state:
    it consumes one entry of the fault plan and raises or takes effect. *)
Definition remote_call (effect : SheetsManager → SheetsManager)
    : @operation SheetsManager unit :=
  λ self,
    match faults self with
    | Some e :: plan => (set_faults plan self, inr e)
    | None :: plan => (effect (set_faults plan self), inl tt)
    | [] => (effect self, inl tt)
    end.

Definition profiles_append_row (values : list string) : @operation SheetsManager unit :=
  remote_call (λ self, set_profiles_sheet (ws_append_row values (profiles_sheet self)) self).

Definition profiles_update (cell : string * nat) (formula : string)
    : @operation SheetsManager unit :=
  remote_call (λ self, set_profiles_sheet (ws_update cell formula (profiles_sheet self)) self).

Definition log_append_row (values : list string) : @operation SheetsManager unit :=
  remote_call (λ self, set_log_sheet (ws_append_row values <$> log_sheet self) self).

(** [self.safe_update(func, ...)] with the default [max_retries]; the sleeps
    and log lines go to the trace. *)
Definition run_safe_update (func : @operation SheetsManager unit)
    (self : SheetsManager) : SheetsManager * option unit :=
  let '(self', evs, r) := safe_update func default_max_retries self in
  (add_trace evs self', r).

(** ** Reconciliation *)

(** The names [write_profile] and its helpers take from [core_scraper],
    with [json.dumps(d, ensure_ascii=False)]. *)
Record core_scraper := {
  COLUMN_ORDER : list string;
  LINK_COLUMNS : list string;
  COLUMN_TO_INDEX : string → nat;
  column_letter : nat → string;
  clean_data : string → string;
  json_dumps : gmap string string → string
}.

Section Reconcile.
Variable cs : core_scraper.

Definition dquote : string := String "034"%char EmptyString.

Definition link_formula (col_name value : string) : string :=
  if String.eqb col_name "IMAGE" then
    "=IMAGE(" +:+ dquote +:+ value +:+ dquote +:+ ", 4, 50, 50)"
  else if String.eqb col_name "LAST POST" then
    "=HYPERLINK(" +:+ dquote +:+ value +:+ dquote +:+ ", "
      +:+ dquote +:+ "Post" +:+ dquote +:+ ")"
  else
    "=HYPERLINK(" +:+ dquote +:+ value +:+ dquote +:+ ", "
      +:+ dquote +:+ "Profile" +:+ dquote +:+ ")".

(** One iteration of [for col_name in LINK_COLUMNS]. *)
Definition apply_link_formula (row_idx : nat) (data : gmap string string)
    (self : SheetsManager) (col_name : string) : SheetsManager :=
  if Py.truthy_get data col_name then
    let value := Py.get_or_empty data col_name in
    let col_idx := COLUMN_TO_INDEX cs col_name in
    let cell := (column_letter cs col_idx, row_idx) in
    (run_safe_update (profiles_update cell (link_formula col_name value)) self).1
  else self.

Definition apply_link_formulas (row_idx : nat) (data : gmap string string)
    (self : SheetsManager) : SheetsManager :=
  foldl (apply_link_formula row_idx data) self (LINK_COLUMNS cs).

Definition log_change (nickname change_type : string)
    (changed_fields : list string)
    (before after : option (gmap string string))
    (self : SheetsManager) : SheetsManager :=
  match log_sheet self with
  | None => self
  | Some _ =>
      let timestamp := clock self in
      let fields_text :=
        match changed_fields with
        | [] => "-"
        | _ => Py.join ", " changed_fields
        end in
      let before_text := String.substring 0 500 (json_dumps cs (default ∅ before)) in
      let after_text := String.substring 0 500 (json_dumps cs (default ∅ after)) in
      (run_safe_update
         (log_append_row [timestamp; nickname; change_type; fields_text;
                          before_text; after_text]) self).1
  end.

(** The cell computed for one column in the loop that prepares the row. *)
Definition cell_value (data : gmap string string) (col : string) : string :=
  if String.eqb col "IMAGE" then EmptyString
  else if String.eqb col "PROFILE LINK" then
    (if Py.truthy_get data col then "Profile" else EmptyString)
  else if String.eqb col "LAST POST" then
    (if Py.truthy_get data col then "Post" else EmptyString)
  else clean_data cs (Py.get_or_empty data col).

Definition row_values (data : gmap string string) : list string :=
  cell_value data <$> COLUMN_ORDER cs.

(** [{COLUMN_ORDER[idx]: (data[idx] if idx < len(data) else '') for idx in ...}] *)
Definition before_snapshot (existing_data : list string) : gmap string string :=
  foldl (λ d (c : nat * string),
           <[c.2 := default EmptyString (existing_data !! c.1)]> d)
        ∅ (enumerate (COLUMN_ORDER cs)).

(** [{col: data.get(col, '') for col in COLUMN_ORDER}] *)
Definition after_snapshot (data : gmap string string) : gmap string string :=
  foldl (λ d col, <[col := Py.get_or_empty data col]> d) ∅ (COLUMN_ORDER cs).

(** The loop that fills [changed_indices]; [new_row_values[idx]] is in
    range, the row having one cell per column. *)
Definition changed_indices (before : gmap string string)
    (new_row_values : list string) : list nat :=
  omap (λ c : nat * string,
          let old_val := Py.or_empty (Py.get_or_empty before c.2) in
          let new_val := Py.or_empty (default EmptyString (new_row_values !! c.1)) in
          if bool_decide (old_val = new_val) then None else Some c.1)
       (enumerate (COLUMN_ORDER cs)).

Definition write_profile (self : SheetsManager) (data : gmap string string)
    : SheetsManager * gmap string string * write_result :=
  let nickname := Py.strip (Py.get_or_empty data "NICK NAME") in
  if negb (Py.truthy nickname) then
    (self, data,
     {| status := "error"; error := Some "Missing nickname"; changed_fields := [] |})
  else
    let data := <["TAGS" := get_tags_for_nickname (tags_mapping self) nickname]> data in
    let row_values := row_values data in
    let nickname_lower := Py.lower nickname in
    match existing_profiles self !! nickname_lower with
    | Some existing =>
        let before_snapshot := before_snapshot (entry_data existing) in
        let changed_indices := changed_indices before_snapshot row_values in
        match changed_indices with
        | [] =>
            let self := log_change nickname "UNCHANGED" []
                          (Some before_snapshot) (Some (after_snapshot data)) self in
            (self, data,
             {| status := "unchanged"; error := None; changed_fields := [] |})
        | _ =>
            let self := (run_safe_update (profiles_append_row row_values) self).1 in
            let new_row := length (ws_rows (profiles_sheet self)) in
            let self := apply_link_formulas new_row data self in
            let changed_fields :=
              (λ idx, default EmptyString (COLUMN_ORDER cs !! idx)) <$> changed_indices in
            let self := log_change nickname "UPDATED" changed_fields
                          (Some before_snapshot) (Some (after_snapshot data)) self in
            let self :=
              set_existing_profiles
                (<[nickname_lower := {| entry_row := new_row; entry_data := row_values |}]>
                   (existing_profiles self)) self in
            (self, data,
             {| status := "updated"; error := None; changed_fields := changed_fields |})
        end
    | None =>
        let self := (run_safe_update (profiles_append_row row_values) self).1 in
        let new_row := length (ws_rows (profiles_sheet self)) in
        let self := apply_link_formulas new_row data self in
        let self :=
          set_existing_profiles
            (<[nickname_lower := {| entry_row := new_row; entry_data := row_values |}]>
               (existing_profiles self)) self in
        let changed_fields := COLUMN_ORDER cs in
        let self := log_change nickname "NEW" changed_fields
                      None (Some (after_snapshot data)) self in
        (self, data,
         {| status := "new"; error := None; changed_fields := changed_fields |})
    end.

(** *** Vocabulary of the statements below *)

(** The nickname as [write_profile] reads it, and the identity it is
    looked up under. *)
Definition nickname_of (data : gmap string string) : string :=
  Py.strip (Py.get_or_empty data "NICK NAME").

Definition identity_of (data : gmap string string) : string :=
  Py.lower (nickname_of data).

Definition has_nickname (data : gmap string string) : Prop :=
  Py.truthy (nickname_of data) = true.

(** The record once the resolved tags are attached to it. *)
Definition tagged (self : SheetsManager) (data : gmap string string)
    : gmap string string :=
  <["TAGS" := get_tags_for_nickname (tags_mapping self) (nickname_of data)]> data.

(** The projected row of a record. *)
Definition projected (self : SheetsManager) (data : gmap string string)
    : list string :=
  row_values (tagged self data).

(** A stored cell; a cell the stored row lacks reads as the empty string. *)
Definition stored_cell (stored : list string) (idx : nat) : string :=
  default EmptyString (stored !! idx).


(** What the executor returns for the append of the projected row when it
    is the next remote call: [Some tt] when the row was appended, [None]
    when the attempts ran out. *)
Definition append_outcome (self : SheetsManager) (data : gmap string string)
    : option unit :=
  (run_safe_update (profiles_append_row (projected self data)) self).2.

(** The cell formulas a call added to the Profiles table. *)
Definition formulas_added (self self' : SheetsManager)
    (added : list (string * nat * string)) : Prop :=
  ws_formulas (profiles_sheet self') = ws_formulas (profiles_sheet self) ++ added.

(** The two records agree on every field, except that under the three
    link-bearing fields they may hold different non-empty values. *)
Definition differ_in_urls_only (d1 d2 : gmap string string) : Prop :=
  ∀ k, d1 !! k = d2 !! k
       ∨ (k ∈ ["IMAGE"; "PROFILE LINK"; "LAST POST"]
          ∧ Py.truthy_get d1 k = true ∧ Py.truthy_get d2 k = true).

(** What a call that reaches the append leaves behind, in terms of the
    state [appended] in which the executor returned from the append: the
    rows are those of [appended]; the formulas added all sit in the row
    numbered by the row count; the index binds the identity to that
    number and to the projected row; the tags are untouched. *)
Definition append_effects (self : SheetsManager) (data : gmap string string)
    (self' : SheetsManager) : Prop :=
  let appended :=
    (run_safe_update (profiles_append_row (projected self data)) self).1 in
  let new_row := length (ws_rows (profiles_sheet appended)) in
  ws_rows (profiles_sheet self') = ws_rows (profiles_sheet appended)
  ∧ (∃ added, formulas_added self self' added
              ∧ Forall (λ f, f.1.2 = new_row) added)
  ∧ existing_profiles self' =
      <[identity_of data :=
          {| entry_row := new_row; entry_data := projected self data |}]>
        (existing_profiles self)
  ∧ tags_mapping self' = tags_mapping self.

End Reconcile.


(** The call gets as far as the append: the record has a nickname and is
    not found unchanged. *)
Definition reaches_append (cs : core_scraper) (self : SheetsManager)
    (data : gmap string string) : Prop :=
  has_nickname data
  ∧ match existing_profiles self !! identity_of data with
    | None => True
    | Some existing =>
        changed_indices cs (before_snapshot cs (entry_data existing))
                        (projected cs self data) ≠ []
    end.

(** ** Sample data *)

Definition sample_columns : list string :=
  ["IMAGE"; "NICK NAME"; "TAGS"; "CITY"; "PROFILE LINK"; "LAST POST"].

Definition sample_scraper : core_scraper := {|
  COLUMN_ORDER := sample_columns;
  LINK_COLUMNS := ["IMAGE"; "LAST POST"; "PROFILE LINK"];
  COLUMN_TO_INDEX := λ col, default 0 (fst <$> list_find (λ c, c = col) sample_columns);
  column_letter := λ n, default "?" (["A"; "B"; "C"; "D"; "E"; "F"] !! n);
  clean_data := Py.strip;
  json_dumps := λ d, "{...}"
|}.

(** A manager right after setup on a workbook whose Profiles table holds
    the header only, with the fault plan [plan]. *)
Definition sample_manager (plan : list (option string)) : SheetsManager := {|
  profiles_sheet := {| ws_rows := [sample_columns]; ws_formulas := [] |};
  log_sheet := Some {| ws_rows := []; ws_formulas := [] |};
  tags_mapping := load_tags_mapping (Some sample_tags) ∅;
  existing_profiles := ∅;
  faults := plan;
  clock := "06-Nov-26 09:00 AM";
  trace := []
|}.

Definition sample_record : gmap string string :=
  list_to_map [("NICK NAME", " Bob "); ("CITY", "Lahore");
               ("IMAGE", "http://img/1.png"); ("PROFILE LINK", "http://site/bob")].


(** The same profile with other URLs under the link-bearing fields. *)
Definition sample_record_relinked : gmap string string :=
  <["IMAGE" := "http://img/2.png"]>
    (<["PROFILE LINK" := "http://mirror/bob"]> sample_record).

(** The manager once [sample_record] has been written, with the fault plan
    [plan] for what comes next. *)
Definition bob_known (plan : list (option string)) : SheetsManager :=
  set_faults plan (write_profile sample_scraper (sample_manager []) sample_record).1.1.

(** The index entry of bob in [bob_known]. *)
Definition bob_entry : profile_entry :=
  {| entry_row := 2;
     entry_data := [EmptyString; "Bob"; "Flagged"; "Lahore"; "Profile"; EmptyString] |}.

(** A plan under which the next remote call fails for good: three failures
    that are not rate limits. *)
Definition three_failures : list (option string) :=
  [Some "503 backend error"; Some "503 backend error"; Some "503 backend error"].

(** What the formula and logging steps leave as it was. *)
Definition keeps_index_and_rows (self self' : SheetsManager) : Prop :=
  existing_profiles self' = existing_profiles self
  ∧ tags_mapping self' = tags_mapping self
  ∧ clock self' = clock self
  ∧ ws_rows (profiles_sheet self') = ws_rows (profiles_sheet self).

(** ** Loading the index: [load_existing_profiles] *)

(** [enumerate(l, start)] *)
Definition enumerate_from {A} (start : nat) (l : list A) : list (nat * A) :=
  imap (λ i x, (start + i, x)) l.

(** Body of the loop of [load_existing_profiles], for one numbered row. *)
Definition index_row (existing_profiles : gmap string profile_entry)
    (c : nat * list string) : gmap string profile_entry :=
  let '(idx, row) := c in
  if negb (bool_decide (row = [])) && (1 <? length row) then
    let nickname := Py.lower (Py.strip (default EmptyString (row !! 1))) in
    if Py.truthy nickname then
      <[nickname := {| entry_row := idx; entry_data := row |}]> existing_profiles
    else existing_profiles
  else existing_profiles.

(** [load_existing_profiles], as a function of what [get_all_values]
    returned for the Profiles table: the index is rebuilt from nothing, the
    header row is skipped and the rows are numbered from 2. *)
Definition load_existing_profiles (all_values : list (list string))
    : gmap string profile_entry :=
  foldl index_row ∅ (enumerate_from 2 (drop 1 all_values)).

(** The identity a row is indexed under, if any. *)
Definition row_identity (row : list string) : option string :=
  match row !! 1 with
  | Some cell =>
      if Py.truthy (Py.lower (Py.strip cell))
      then Some (Py.lower (Py.strip cell)) else None
  | None => None
  end.

(** Every index entry names a row of the Profiles table, by its 1-based
    position, and holds the cells of that row. *)
Definition index_coherent (self : SheetsManager) : Prop :=
  ∀ n e, existing_profiles self !! n = Some e →
         1 ≤ entry_row e
         ∧ ws_rows (profiles_sheet self) !! (entry_row e - 1) = Some (entry_data e).

(** ** Target selection: [get_target_nicknames] *)

(** An element of the list [get_target_nicknames] returns. *)
Record target := {
  target_nickname : string;
  target_row : nat;
  target_source : string
}.

(** The warning sign of the second pending marker (U+1F6A8, in UTF-8). *)
Definition siren : string :=
  String "240"%char (String "159"%char (String "154"%char
    (String "168"%char EmptyString))).

Definition pending_markers : list string := ["pending"; "pending " +:+ siren].

(** Body of the loop of [get_target_nicknames], for one numbered row. *)
Definition select_target (targets : list target) (c : nat * list string)
    : list target :=
  let '(idx, row) := c in
  if bool_decide (row = []) || (length row =? 0) then targets
  else
    let nickname :=
      if 0 <? length row then Py.strip (default EmptyString (row !! 0))
      else EmptyString in
    let status :=
      if 1 <? length row then Py.strip (default EmptyString (row !! 1))
      else EmptyString in
    let source :=
      if 3 <? length row then Py.strip (default EmptyString (row !! 3))
      else "Manual" in
    if Py.truthy nickname && bool_decide (Py.lower status ∈ pending_markers)
    then targets ++ [{| target_nickname := nickname; target_row := idx;
                        target_source := source |}]
    else targets.

(** [get_target_nicknames], as a function of the constant
    [MAX_PROFILES_PER_RUN] of [core_scraper] and of what [get_all_values]
    returned for the Target table. *)
Definition get_target_nicknames (MAX_PROFILES_PER_RUN : Z)
    (all_values : list (list string)) : list target :=
  let targets := foldl select_target [] (enumerate_from 2 (drop 1 all_values)) in
  if (0 <? MAX_PROFILES_PER_RUN)%Z
  then take (Z.to_nat MAX_PROFILES_PER_RUN) targets
  else targets.

(** A row of the Target table is eligible: it has a nickname and its status
    is one of the pending markers, whatever the case. *)
Definition eligible (row : list string) : bool :=
  Py.truthy (Py.strip (default EmptyString (row !! 0)))
  && bool_decide (Py.lower (Py.strip (default EmptyString (row !! 1)))
                  ∈ pending_markers).

(** The target an eligible row at position [idx] gives. *)
Definition target_of (idx : nat) (row : list string) : target :=
  {| target_nickname := Py.strip (default EmptyString (row !! 0));
     target_row := idx;
     target_source :=
       match row !! 3 with Some cell => Py.strip cell | None => "Manual" end |}.

(** ** Vocabulary for the formula and logging steps *)

(** The formula cells [apply_link_formulas] is after, for one row: one per
    link column under which the record holds a value, in the order of
    LINK_COLUMNS. *)
Definition link_cells (cs : core_scraper) (row_idx : nat)
    (data : gmap string string) : list (string * nat * string) :=
  omap (λ col_name,
          if Py.truthy_get data col_name
          then Some (column_letter cs (COLUMN_TO_INDEX cs col_name), row_idx,
                     link_formula col_name (Py.get_or_empty data col_name))
          else None)
       (LINK_COLUMNS cs).

(** The state in which the executor returned from the append of the
    projected row, when that append is the next remote call. *)
Definition after_append (cs : core_scraper) (self : SheetsManager)
    (data : gmap string string) : SheetsManager :=
  (run_safe_update (profiles_append_row (projected cs self data)) self).1.

(** ** Vocabulary for the tag mapping *)

(** What an entry of the tag mapping becomes when tags are added to it one
    after the other, the way [load_tags_mapping] does. *)
Definition append_tags (entry : option string) (tags : list string)
    : option string :=
  foldl (λ entry tag,
           Some (match entry with
                 | Some old => old +:+ ", " +:+ tag
                 | None => tag
                 end))
        entry tags.

(** The targets of all the eligible rows below the header, in table
    order, each with the 1-based position of its row. *)
Definition eligible_targets (all_values : list (list string)) : list target :=
  omap (λ c : nat * list string,
          if eligible c.2 then Some (target_of c.1 c.2) else None)
       (enumerate_from 2 (drop 1 all_values)).

(** Table order of two targets. *)
Definition row_before (t1 t2 : target) : Prop := target_row t1 < target_row t2.

(** ** The Target queue and the Dashboard *)

(** A worksheet other than Profiles and Log, with the fault plan of the
    remote store for the calls made on it: the rows [get_all_values]
    returns, the single cells written by [update] (column letter, row,
    value), the ranges given to [format], and the events of the executor. *)
Record remote_sheet := {
  rs_rows : list (list string);
  rs_cells : list (string * nat * string);
  rs_formats : list string;
  rs_faults : list (option string);
  rs_trace : list event
}.

Definition rs_set_faults (plan : list (option string)) (s : remote_sheet) :=
  {| rs_rows := rs_rows s; rs_cells := rs_cells s; rs_formats := rs_formats s;
     rs_faults := plan; rs_trace := rs_trace s |}.

Definition rs_add_trace (evs : list event) (s : remote_sheet) :=
  {| rs_rows := rs_rows s; rs_cells := rs_cells s; rs_formats := rs_formats s;
     rs_faults := rs_faults s; rs_trace := rs_trace s ++ evs |}.

(** [ws.append_row(values)] *)
Definition rs_append_row (values : list string) (s : remote_sheet) :=
  {| rs_rows := rs_rows s ++ [values]; rs_cells := rs_cells s;
     rs_formats := rs_formats s; rs_faults := rs_faults s;
     rs_trace := rs_trace s |}.

(** [ws.update(values=[[value]], range_name=cell)] *)
Definition rs_update (cell : string * nat) (value : string) (s : remote_sheet) :=
  {| rs_rows := rs_rows s; rs_cells := rs_cells s ++ [(cell.1, cell.2, value)];
     rs_formats := rs_formats s; rs_faults := rs_faults s;
     rs_trace := rs_trace s |}.

(** [ws.clear()]: every value goes. *)
Definition rs_clear (s : remote_sheet) :=
  {| rs_rows := []; rs_cells := []; rs_formats := rs_formats s;
     rs_faults := rs_faults s; rs_trace := rs_trace s |}.

(** [ws.format(range, ...)] *)
Definition rs_format (range : string) (s : remote_sheet) :=
  {| rs_rows := rs_rows s; rs_cells := rs_cells s;
     rs_formats := rs_formats s ++ [range]; rs_faults := rs_faults s;
     rs_trace := rs_trace s |}.

(** A method of the worksheet as an operation: it consumes one entry of the
    fault plan and raises or takes effect. *)
Definition sheet_call (effect : remote_sheet → remote_sheet)
    : @operation remote_sheet unit :=
  λ s,
    match rs_faults s with
    | Some e :: plan => (rs_set_faults plan s, inr e)
    | None :: plan => (effect (rs_set_faults plan s), inl tt)
    | [] => (effect s, inl tt)
    end.

(** [self.safe_update(method, ...)] on such a worksheet. *)
Definition run_sheet_update (effect : remote_sheet → remote_sheet)
    (s : remote_sheet) : remote_sheet :=
  let '(s', evs, _) := safe_update (sheet_call effect) default_max_retries s in
  rs_add_trace evs s'.

(** [update_target_status]: the status goes to column B of the row, the
    remarks to column C, each through the executor. *)
Definition update_target_status (row_num : nat) (status remarks : string)
    (target_sheet : remote_sheet) : remote_sheet :=
  let target_sheet :=
    run_sheet_update (rs_update ("B", row_num) status) target_sheet in
  run_sheet_update (rs_update ("C", row_num) remarks) target_sheet.

Definition expected_headers : list string :=
  ["Run#"; "Timestamp"; "Profiles"; "Success"; "Failed"; "New"; "Updated";
   "Unchanged"].

(** [row_data] of [update_dashboard]; the counters are kept as their
    decimal text, so that a missing counter reads as the text of 0. *)
Definition dashboard_row (metrics : gmap string string) : list string :=
  [default EmptyString (metrics !! "Run Number");
   default EmptyString (metrics !! "Last Run");
   default "0" (metrics !! "Profiles Processed");
   default "0" (metrics !! "Success");
   default "0" (metrics !! "Failed");
   default "0" (metrics !! "New Profiles");
   default "0" (metrics !! "Updated Profiles");
   default "0" (metrics !! "Unchanged Profiles")].

(** [update_dashboard]; the handle is [None] when there is no Dashboard
    table. *)
Definition update_dashboard (metrics : gmap string string)
    (dashboard_sheet : option remote_sheet) : option remote_sheet :=
  match dashboard_sheet with
  | None => None
  | Some sheet =>
      let existing_data := rs_rows sheet in
      let sheet :=
        if bool_decide (existing_data = [])
           || negb (bool_decide (existing_data !! 0 = Some expected_headers))
        then
          let sheet := run_sheet_update rs_clear sheet in
          let sheet := run_sheet_update (rs_append_row expected_headers) sheet in
          run_sheet_update (rs_format "A1:H1") sheet
        else sheet in
      Some (run_sheet_update (rs_append_row (dashboard_row metrics)) sheet)
  end.

(** ** More sample data *)


(** A Target table: two pending rows, one done, one without nickname. *)
Definition sample_target_table : list (list string) :=
  [["Nickname"; "Status"; "Remarks"; "Source"];
   [" alice "; "Pending"];
   ["bob"; "Done"; ""; "Manual"];
   [""; "pending"];
   ["carol"; " PENDING "; ""; " Online "]].

Definition sample_target : target :=
  {| target_nickname := "alice"; target_row := 2; target_source := "Manual" |}.

(** A Dashboard that already has its header and one run, and one that holds
    something else. *)
Definition sample_dashboard (plan : list (option string)) : remote_sheet :=
  {| rs_rows := [expected_headers; ["1"; "05-Nov-26"; "3"; "3"; "0"; "1"; "1"; "1"]];
     rs_cells := []; rs_formats := ["A1:H1"]; rs_faults := plan; rs_trace := [] |}.

Definition stale_dashboard : remote_sheet :=
  {| rs_rows := [["Run"; "When"]; ["1"; "yesterday"]];
     rs_cells := []; rs_formats := []; rs_faults := []; rs_trace := [] |}.

Definition sample_metrics : gmap string string :=
  list_to_map [("Run Number", "2"); ("Last Run", "06-Nov-26");
               ("Profiles Processed", "5"); ("Success", "4"); ("Failed", "1")].


(** [bob_known] with its index loaded anew from the rows of the table. *)
Definition bob_reloaded : SheetsManager :=
  set_existing_profiles
    (load_existing_profiles (ws_rows (profiles_sheet (bob_known []))))
    (bob_known []).

(** ** Formatting, and two more notions about calls *)

(** [format_profiles_sheet], on the worksheet it formats: the whole sheet,
    then the header row, each through the executor. *)
Definition format_profiles_sheet (profiles : remote_sheet) : remote_sheet :=
  let profiles := run_sheet_update (rs_format "A:R") profiles in
  run_sheet_update (rs_format "A1:R1") profiles.

(** The index is what a reload from the rows of the table would give. *)
Definition index_synced (self : SheetsManager) : Prop :=
  existing_profiles self = load_existing_profiles (ws_rows (profiles_sheet self)).

(** From [self] to [self'] the trace has only grown, by events whose
    backoff sleeps add up to [seconds] at most. *)
Definition backoff_within (seconds : nat) (self self' : SheetsManager) : Prop :=
  ∃ evs, trace self' = trace self ++ evs
         ∧ sum_list (backoff_sleeps evs) ≤ seconds.

(** * Properties *)

(** ** The executor *)

Section ExecutorFacts.
Context {S R : Type}.
Implicit Types (func : @operation S R) (s : S).

Lemma safe_update_loop_success func m attempt rest s s' r :
  func s = (s', inl r) →
  safe_update_loop func m (attempt :: rest) s = (s', [Sleep SHEET_WRITE_DELAY], Some r).
Proof. intros Hf. simpl. by rewrite Hf. Qed.

Lemma safe_update_loop_rate_limited func m attempt rest s s' e :
  func s = (s', inr e) → is_rate_limit e = true →
  safe_update_loop func m (attempt :: rest) s =
    let '(s'', evs, r) := safe_update_loop func m rest s' in
    (s'', backoff_events attempt ++ evs, r).
Proof. intros Hf He. simpl. by rewrite Hf, He. Qed.

Lemma safe_update_loop_other func m attempt rest s s' e :
  func s = (s', inr e) → is_rate_limit e = false →
  safe_update_loop func m (attempt :: rest) s =
    if attempt =? m - 1 then (s', [LogMsg (UpdateFailed m e)], None)
    else safe_update_loop func m rest s'.
Proof. intros Hf He. simpl. by rewrite Hf, He. Qed.

Lemma after_calls_succ func n s :
  after_calls func (Datatypes.S n) s = after_calls func n (func s).1.
Proof. unfold after_calls. by rewrite Nat.iter_succ_r. Qed.

(** An operation that is rate limited on every call uses up every attempt,
    sleeping after each of them. *)
Lemma safe_update_loop_always_rate_limited func m :
  (∀ s, ∃ s' e, func s = (s', inr e) ∧ is_rate_limit e = true) →
  ∀ attempts s,
    safe_update_loop func m attempts s =
      (after_calls func (length attempts) s,
       flat_map backoff_events attempts, None).
Proof.
  intros Hall attempts. induction attempts as [|a rest IH]; intros s.
  - reflexivity.
  - destruct (Hall s) as (s' & e & Hf & He).
    rewrite (safe_update_loop_rate_limited _ _ _ _ _ _ _ Hf He), IH.
    cbn [length flat_map]. rewrite after_calls_succ, Hf. reflexivity.
Qed.

End ExecutorFacts.

(** C6.  Through [safe_update] with its three attempts: an operation that
    is rate limited twice and then returns yields that result, after exactly
    the two backoff sleeps [(0+1)*5] and [(1+1)*5] (plus the write delay);
    an operation that is rate limited on every call was called three times
    and yields [None], no exception leaving the executor; a failure of any
    other kind ends the loop with a log line and [None] when it happens on
    the last attempt, and is retried at once otherwise, so that three such
    failures give [None] after one log line and no sleep. *)
Theorem safe_update_contract {S R : Type} (func : @operation S R) :
  (∀ s0 s1 s2 s3 e1 e2 r,
      func s0 = (s1, inr e1) → is_rate_limit e1 = true →
      func s1 = (s2, inr e2) → is_rate_limit e2 = true →
      func s2 = (s3, inl r) →
      ∃ evs, safe_update func default_max_retries s0 = (s3, evs, Some r)
             ∧ backoff_sleeps evs = [(0 + 1) * 5; (1 + 1) * 5]
             ∧ failure_logs evs = [])
  ∧ ((∀ s, ∃ s' e, func s = (s', inr e) ∧ is_rate_limit e = true) →
      ∀ s, ∃ evs,
        safe_update func default_max_retries s =
          (after_calls func default_max_retries s, evs, None)
        ∧ backoff_sleeps evs = [5; 10; 15])
  ∧ (∀ s s' e attempt rest,
      func s = (s', inr e) → is_rate_limit e = false →
      safe_update_loop func default_max_retries (attempt :: rest) s =
        if attempt =? default_max_retries - 1
        then (s', [LogMsg (UpdateFailed default_max_retries e)], None)
        else safe_update_loop func default_max_retries rest s')
  ∧ (∀ s0 s1 s2 s3 e1 e2 e3,
      func s0 = (s1, inr e1) → is_rate_limit e1 = false →
      func s1 = (s2, inr e2) → is_rate_limit e2 = false →
      func s2 = (s3, inr e3) → is_rate_limit e3 = false →
      safe_update func default_max_retries s0
      = (s3, [LogMsg (UpdateFailed default_max_retries e3)], None)).
Proof.
  split; [|split; [|split]].
  - intros s0 s1 s2 s3 e1 e2 r H1 Q1 H2 Q2 H3.
    unfold safe_update, default_max_retries. cbn [seq].
    rewrite (safe_update_loop_rate_limited _ _ _ _ _ _ _ H1 Q1).
    rewrite (safe_update_loop_rate_limited _ _ _ _ _ _ _ H2 Q2).
    rewrite (safe_update_loop_success _ _ _ _ _ _ _ H3).
    eexists. split; [reflexivity|]. split; reflexivity.
  - intros Hall s. unfold safe_update.
    rewrite (safe_update_loop_always_rate_limited _ _ Hall).
    rewrite length_seq. eexists. split; reflexivity.
  - intros s s' e attempt rest Hf He.
    apply safe_update_loop_other; assumption.
  - intros s0 s1 s2 s3 e1 e2 e3 H1 Q1 H2 Q2 H3 Q3.
    unfold safe_update, default_max_retries. cbn [seq].
    rewrite (safe_update_loop_other _ _ _ _ _ _ _ H1 Q1). cbn [Nat.eqb Nat.sub].
    rewrite (safe_update_loop_other _ _ _ _ _ _ _ H2 Q2). cbn [Nat.eqb Nat.sub].
    by rewrite (safe_update_loop_other _ _ _ _ _ _ _ H3 Q3).
Qed.

Lemma safe_update_contract_witness :
  ∃ evs,
    safe_update (scripted 0)
      default_max_retries [inr "HTTP 429"; inr "Quota exceeded"; inl 7; inl 8]
    = ([inl 8], evs, Some 7)
    ∧ backoff_sleeps evs = [(0 + 1) * 5; (1 + 1) * 5]
    ∧ failure_logs evs = [].
Proof.
  eapply (proj1 (safe_update_contract (scripted 0))); reflexivity.
Defined.

(** ** The tag resolver *)

Lemma string_app_assoc (a b c : string) : (a +:+ b) +:+ c = a +:+ b +:+ c.
Proof.
  induction a as [|x a IH]; [done|].
  change (String x ((a +:+ b) +:+ c) = String x (a +:+ b +:+ c)).
  by rewrite IH.
Qed.

Lemma strip_truthy s : Py.truthy (Py.strip s) = true → Py.truthy s = true.
Proof. by destruct s. Qed.



Section TagInvariant.
Implicit Types (m : gmap string string) (f : string → list string).




End TagInvariant.

Lemma load_tags_mapping_short all_data m :
  length all_data < 2 → load_tags_mapping (Some all_data) m = m.
Proof.
  intros Hlen. unfold load_tags_mapping.
  destruct (length all_data <? 2) eqn:E; [by rewrite orb_true_r|].
  apply Nat.ltb_ge in E. lia.
Qed.

Lemma tags_listed_short all_data identity :
  length all_data < 2 → tags_listed all_data identity = [].
Proof.
  intros Hlen. unfold tags_listed.
  destruct all_data as [|headers [|row rest]]; simpl in *; [done| |lia].
  induction (enumerate headers) as [|col cols IH]; [done|].
  simpl. rewrite IH. unfold tag_hits. by destruct (Py.truthy _).
Qed.






(** ** Remote calls through the executor *)

Lemma set_faults_id self : set_faults (faults self) self = self.
Proof. by destruct self. Qed.

Lemma remote_call_cases effect self :
  (∃ plan, remote_call effect self = (effect (set_faults plan self), inl tt))
  ∨ (∃ plan e, remote_call effect self = (set_faults plan self, inr e)).
Proof.
  unfold remote_call. destruct (faults self) as [|[e|] plan] eqn:Hf.
  - left. exists (faults self). by rewrite set_faults_id.
  - right. by exists plan, e.
  - left. by exists plan.
Qed.

(** Whatever the plan, a remote call run through the executor either never
    took effect, or took effect once, on a state that differs from the
    initial one in the remaining plan only. *)
Lemma safe_update_loop_remote effect m attempts : ∀ self,
  ∃ plan evs,
    safe_update_loop (remote_call effect) m attempts self
      = (set_faults plan self, evs, None)
    ∨ safe_update_loop (remote_call effect) m attempts self
      = (effect (set_faults plan self), evs, Some tt).
Proof.
  induction attempts as [|a rest IH]; intros self.
  - exists (faults self), []. left. by rewrite set_faults_id.
  - simpl. destruct (remote_call_cases effect self) as [(plan & ->) | (plan & e & ->)].
    + exists plan, [Sleep SHEET_WRITE_DELAY]. by right.
    + destruct (is_rate_limit e).
      * destruct (IH (set_faults plan self)) as (plan' & evs & [-> | ->]);
          eexists plan', _; [left | right]; reflexivity.
      * destruct (a =? m - 1).
        -- exists plan, [LogMsg (UpdateFailed m e)]. by left.
        -- destruct (IH (set_faults plan self)) as (plan' & evs & [-> | ->]);
             eexists plan', _; [left | right]; reflexivity.
Qed.

Lemma run_safe_update_remote effect self :
  ∃ plan evs,
    run_safe_update (remote_call effect) self
      = (add_trace evs (set_faults plan self), None)
    ∨ run_safe_update (remote_call effect) self
      = (add_trace evs (effect (set_faults plan self)), Some tt).
Proof.
  unfold run_safe_update, safe_update.
  destruct (safe_update_loop_remote effect default_max_retries
              (seq 0 default_max_retries) self) as (plan & evs & [-> | ->]);
    exists plan, evs; [by left | by right].
Qed.

(** The append of a row: nothing added when the executor gives up, the row
    added at the end when it returns. *)
Lemma run_append_row values self :
  let r := run_safe_update (profiles_append_row values) self in
  existing_profiles r.1 = existing_profiles self
  ∧ tags_mapping r.1 = tags_mapping self
  ∧ log_sheet r.1 = log_sheet self
  ∧ clock r.1 = clock self
  ∧ ws_formulas (profiles_sheet r.1) = ws_formulas (profiles_sheet self)
  ∧ ws_rows (profiles_sheet r.1) =
      match r.2 with
      | Some _ => ws_rows (profiles_sheet self) ++ [values]
      | None => ws_rows (profiles_sheet self)
      end.
Proof.
  unfold profiles_append_row.
  destruct (run_safe_update_remote
    (λ s, set_profiles_sheet (ws_append_row values (profiles_sheet s)) s) self)
    as (plan & evs & [-> | ->]); simpl; auto 10.
Qed.

(** A cell update leaves the rows alone and adds at most its formula. *)
Lemma run_update_cell cell formula self :
  let self' := (run_safe_update (profiles_update cell formula) self).1 in
  existing_profiles self' = existing_profiles self
  ∧ tags_mapping self' = tags_mapping self
  ∧ log_sheet self' = log_sheet self
  ∧ clock self' = clock self
  ∧ ws_rows (profiles_sheet self') = ws_rows (profiles_sheet self)
  ∧ ∃ added, ws_formulas (profiles_sheet self')
             = ws_formulas (profiles_sheet self) ++ added
             ∧ Forall (λ f, f.1.2 = cell.2) added.
Proof.
  unfold profiles_update.
  destruct (run_safe_update_remote
    (λ s, set_profiles_sheet (ws_update cell formula (profiles_sheet s)) s) self)
    as (plan & evs & [-> | ->]); simpl; repeat (split; [done|]).
  - exists []. by rewrite app_nil_r.
  - eexists [_]. split; [done|]. by constructor.
Qed.

(** A log append leaves the Profiles table and the index alone. *)
Lemma run_log_append values self :
  let self' := (run_safe_update (log_append_row values) self).1 in
  existing_profiles self' = existing_profiles self
  ∧ tags_mapping self' = tags_mapping self
  ∧ profiles_sheet self' = profiles_sheet self
  ∧ clock self' = clock self
  ∧ (log_sheet self' = log_sheet self
     ∨ log_sheet self' = ws_append_row values <$> log_sheet self).
Proof.
  unfold log_append_row.
  destruct (run_safe_update_remote
    (λ s, set_log_sheet (ws_append_row values <$> log_sheet s) s) self)
    as (plan & evs & [-> | ->]); simpl; auto 10.
Qed.


(** ** The steps of [write_profile] *)

Section ReconcileFacts.
Variable cs : core_scraper.

Lemma apply_link_formula_frame row_idx data self col_name :
  let self' := apply_link_formula cs row_idx data self col_name in
  keeps_index_and_rows self self'
  ∧ log_sheet self' = log_sheet self
  ∧ ∃ added, formulas_added self self' added
             ∧ Forall (λ f, f.1.2 = row_idx) added.
Proof.
  unfold apply_link_formula, keeps_index_and_rows, formulas_added.
  destruct (Py.truthy_get data col_name).
  - destruct (run_update_cell
      (column_letter cs (COLUMN_TO_INDEX cs col_name), row_idx)
      (link_formula col_name (Py.get_or_empty data col_name)) self)
      as (? & ? & ? & ? & ? & ?).
    simpl in *. auto 10.
  - simpl. repeat (split; [done|]). exists []. by rewrite app_nil_r.
Qed.

Lemma link_formulas_frame row_idx data cols : ∀ self,
  let self' := foldl (apply_link_formula cs row_idx data) self cols in
  keeps_index_and_rows self self'
  ∧ log_sheet self' = log_sheet self
  ∧ ∃ added, formulas_added self self' added
             ∧ Forall (λ f, f.1.2 = row_idx) added.
Proof.
  induction cols as [|col cols IH]; intros self; simpl.
  - unfold keeps_index_and_rows, formulas_added.
    repeat (split; [done|]). exists []. by rewrite app_nil_r.
  - destruct (apply_link_formula_frame row_idx data self col)
      as ((E1 & E2 & E3 & E4) & E5 & added1 & E6 & F1).
    destruct (IH (apply_link_formula cs row_idx data self col))
      as ((G1 & G2 & G3 & G4) & G5 & added2 & G6 & F2).
    simpl in *. unfold keeps_index_and_rows, formulas_added in *.
    repeat split; try congruence.
    exists (added1 ++ added2). split.
    + rewrite G6, E6. by rewrite <- app_assoc.
    + by apply Forall_app.
Qed.

Lemma apply_link_formulas_frame row_idx data self :
  let self' := apply_link_formulas cs row_idx data self in
  keeps_index_and_rows self self'
  ∧ log_sheet self' = log_sheet self
  ∧ ∃ added, formulas_added self self' added
             ∧ Forall (λ f, f.1.2 = row_idx) added.
Proof. apply link_formulas_frame. Qed.

Lemma log_change_frame nickname change_type fields before after self :
  let self' := log_change cs nickname change_type fields before after self in
  keeps_index_and_rows self self'
  ∧ profiles_sheet self' = profiles_sheet self
  ∧ (log_sheet self = None → self' = self).
Proof.
  unfold log_change, keeps_index_and_rows.
  destruct (log_sheet self) eqn:Hlog; [|done].
  match goal with
  | |- context [run_safe_update (log_append_row ?v) self] =>
      destruct (run_log_append v self) as (? & ? & E & ? & ?)
  end.
  simpl in *. rewrite E. done.
Qed.

(** The row written by a call that logs holds the nickname and the change
    kind in its second and third cells. *)
Lemma log_change_writes nickname change_type fields before after self :
  let self' := log_change cs nickname change_type fields before after self in
  log_sheet self' = log_sheet self
  ∨ ∃ row, log_sheet self' = ws_append_row row <$> log_sheet self
           ∧ row !! 1 = Some nickname ∧ row !! 2 = Some change_type.
Proof.
  unfold log_change.
  destruct (log_sheet self) eqn:Hlog; [|by left].
  match goal with
  | |- context [run_safe_update (log_append_row ?v) self] =>
      destruct (run_log_append v self) as (? & ? & ? & ? & [E | E])
  end; simpl in *; rewrite E, ?Hlog; [by left|].
  right. eexists. split; [reflexivity|]. done.
Qed.

(** *** Snapshots and change detection *)

Lemma or_empty_id x : Py.or_empty x = x.
Proof. by destruct x. Qed.

Lemma enumerate_elem {A} (l : list A) i x :
  (i, x) ∈ enumerate l ↔ l !! i = Some x.
Proof.
  unfold enumerate. rewrite elem_of_lookup_imap. split.
  - intros (j & y & [= -> ->] & Hl). done.
  - intros Hl. by exists i, x.
Qed.

Lemma omap_ext_in {A B} (f g : A → option B) (l : list A) :
  (∀ x, x ∈ l → f x = g x) → omap f l = omap g l.
Proof.
  induction l as [|x l IH]; intros Hfg; [done|].
  csimpl. rewrite (Hfg x) by apply list_elem_of_here.
  rewrite IH; [done|]. intros y Hy. apply Hfg. by apply list_elem_of_further.
Qed.

Lemma omap_none {A B} (f : A → option B) (l : list A) :
  (∀ x, x ∈ l → f x = None) → omap f l = [].
Proof.
  intros Hf. rewrite (omap_ext_in f (λ _, None) l Hf).
  clear Hf. induction l as [|x l IH]; [done | by csimpl].
Qed.

(** A dictionary comprehension over numbered keys: a key that occurs
    ends up bound to the value of one of its occurrences. *)
Lemma snapshot_fold_lookup (h : nat → string) (l : list (nat * string)) :
  ∀ (m : gmap string string) k,
    k ∈ l.*2 →
    ∃ j, (j, k) ∈ l
         ∧ foldl (λ d (c : nat * string), <[c.2 := h c.1]> d) m l !! k
           = Some (h j).
Proof.
  induction l as [|c l IH] using rev_ind; intros m k Hk.
  - by apply elem_of_nil in Hk.
  - rewrite foldl_snoc. destruct (decide (c.2 = k)) as [<-|Hne].
    + exists c.1. split; [|by rewrite lookup_insert_eq].
      apply elem_of_app. right. destruct c. apply list_elem_of_here.
    + rewrite fmap_app, elem_of_app in Hk. destruct Hk as [Hk|Hk].
      * destruct (IH m k Hk) as (j & Hj & Hl). exists j. split.
        -- apply elem_of_app. by left.
        -- by rewrite lookup_insert_ne.
      * simpl in Hk. apply list_elem_of_singleton in Hk. congruence.
Qed.

Lemma before_snapshot_some stored idx col :
  COLUMN_ORDER cs !! idx = Some col →
  ∃ j, COLUMN_ORDER cs !! j = Some col
       ∧ before_snapshot cs stored !! col = Some (stored_cell stored j).
Proof.
  intros Hcol. unfold before_snapshot.
  destruct (snapshot_fold_lookup (stored_cell stored)
              (enumerate (COLUMN_ORDER cs)) ∅ col) as (j & Hj & Hl).
  - apply list_elem_of_fmap. exists (idx, col). split; [done|].
    by apply enumerate_elem.
  - exists j. split; [by apply enumerate_elem | exact Hl].
Qed.


Lemma row_values_lookup data idx col :
  COLUMN_ORDER cs !! idx = Some col →
  row_values cs data !! idx = Some (cell_value cs data col).
Proof. intros Hcol. unfold row_values. by rewrite list_lookup_fmap, Hcol. Qed.

(** No index is reported when every stored cell equals the cell projected
    for its column. *)
Lemma changed_indices_same stored data :
  (∀ idx col, COLUMN_ORDER cs !! idx = Some col →
              stored_cell stored idx = cell_value cs data col) →
  changed_indices cs (before_snapshot cs stored) (row_values cs data) = [].
Proof.
  intros Hsame. unfold changed_indices. apply omap_none.
  intros [idx col] Hin. apply enumerate_elem in Hin. simpl.
  destruct (before_snapshot_some stored idx col Hin) as (j & Hj & Hl).
  unfold Py.get_or_empty. rewrite Hl, (row_values_lookup _ _ _ Hin). simpl.
  rewrite !or_empty_id, (Hsame j col Hj). by rewrite bool_decide_eq_true_2.
Qed.


(** *** The three outcomes *)

Lemma write_profile_missing self data :
  Py.truthy (nickname_of data) = false →
  write_profile cs self data
  = (self, data,
     {| status := "error"; error := Some "Missing nickname";
        changed_fields := [] |}).
Proof.
  intros Hn. unfold write_profile. cbv zeta.
  change (Py.strip (Py.get_or_empty data "NICK NAME")) with (nickname_of data).
  by rewrite Hn.
Qed.

Lemma write_profile_new self data :
  has_nickname data →
  existing_profiles self !! identity_of data = None →
  ∃ self',
    write_profile cs self data
    = (self', tagged self data,
       {| status := "new"; error := None;
          changed_fields := COLUMN_ORDER cs |})
    ∧ append_effects cs self data self'.
Proof.
  intros Hn Hidx. unfold write_profile. cbv zeta.
  change (Py.strip (Py.get_or_empty data "NICK NAME")) with (nickname_of data).
  rewrite Hn. cbn [negb].
  change (Py.lower (nickname_of data)) with (identity_of data).
  rewrite Hidx.
  change (<["TAGS" := get_tags_for_nickname (tags_mapping self) (nickname_of data)]> data)
    with (tagged self data).
  change (row_values cs (tagged self data)) with (projected cs self data).
  eexists. split; [reflexivity|].
  unfold append_effects. cbv zeta.
  set (s1 := (run_safe_update (profiles_append_row (projected cs self data)) self).1).
  set (new_row := length (ws_rows (profiles_sheet s1))).
  destruct (run_append_row (projected cs self data) self)
    as (A1 & A2 & A3 & A4 & A5 & A6). fold s1 in A1, A2, A3, A4, A5, A6.
  destruct (apply_link_formulas_frame new_row (tagged self data) s1)
    as ((B1 & B2 & B3 & B4) & B5 & added & B6 & B7).
  set (s2 := apply_link_formulas cs new_row (tagged self data) s1) in *.
  match goal with
  | |- context [log_change cs ?n ?k ?f ?b ?a ?s] =>
      destruct (log_change_frame n k f b a s) as ((C1 & C2 & C3 & C4) & C5 & _)
  end.
  unfold formulas_added in *. simpl in *.
  rewrite C4, C1, C2, C5, B4, B1, B2, A1, A2. simpl.
  repeat split; try done.
  exists added. split; [|done]. by rewrite B6, A5.
Qed.

Lemma write_profile_unchanged self data existing :
  has_nickname data →
  existing_profiles self !! identity_of data = Some existing →
  changed_indices cs (before_snapshot cs (entry_data existing))
                  (projected cs self data) = [] →
  write_profile cs self data
  = (log_change cs (nickname_of data) "UNCHANGED" []
       (Some (before_snapshot cs (entry_data existing)))
       (Some (after_snapshot cs (tagged self data))) self,
     tagged self data,
     {| status := "unchanged"; error := None; changed_fields := [] |}).
Proof.
  intros Hn Hidx Hsame. unfold write_profile. cbv zeta.
  change (Py.strip (Py.get_or_empty data "NICK NAME")) with (nickname_of data).
  rewrite Hn. cbn [negb].
  change (Py.lower (nickname_of data)) with (identity_of data).
  rewrite Hidx.
  change (<["TAGS" := get_tags_for_nickname (tags_mapping self) (nickname_of data)]> data)
    with (tagged self data).
  change (row_values cs (tagged self data)) with (projected cs self data).
  by rewrite Hsame.
Qed.

Lemma write_profile_updated self data existing :
  has_nickname data →
  existing_profiles self !! identity_of data = Some existing →
  changed_indices cs (before_snapshot cs (entry_data existing))
                  (projected cs self data) ≠ [] →
  ∃ self',
    write_profile cs self data
    = (self', tagged self data,
       {| status := "updated"; error := None;
          changed_fields :=
            (λ idx, default EmptyString (COLUMN_ORDER cs !! idx))
              <$> changed_indices cs (before_snapshot cs (entry_data existing))
                                  (projected cs self data) |})
    ∧ append_effects cs self data self'.
Proof.
  intros Hn Hidx Hdiff. unfold write_profile. cbv zeta.
  change (Py.strip (Py.get_or_empty data "NICK NAME")) with (nickname_of data).
  rewrite Hn. cbn [negb].
  change (Py.lower (nickname_of data)) with (identity_of data).
  rewrite Hidx.
  change (<["TAGS" := get_tags_for_nickname (tags_mapping self) (nickname_of data)]> data)
    with (tagged self data).
  change (row_values cs (tagged self data)) with (projected cs self data).
  destruct (changed_indices cs (before_snapshot cs (entry_data existing))
              (projected cs self data)) as [|i0 rest] eqn:Hci; [done|].
  eexists. split; [reflexivity|].
  unfold append_effects. cbv zeta.
  set (s1 := (run_safe_update (profiles_append_row (projected cs self data)) self).1).
  set (new_row := length (ws_rows (profiles_sheet s1))).
  destruct (run_append_row (projected cs self data) self)
    as (A1 & A2 & A3 & A4 & A5 & A6). fold s1 in A1, A2, A3, A4, A5, A6.
  destruct (apply_link_formulas_frame new_row (tagged self data) s1)
    as ((B1 & B2 & B3 & B4) & B5 & added & B6 & B7).
  set (s2 := apply_link_formulas cs new_row (tagged self data) s1) in *.
  match goal with
  | |- context [log_change cs ?n ?k ?f ?b ?a ?s] =>
      destruct (log_change_frame n k f b a s) as ((C1 & C2 & C3 & C4) & C5 & _)
  end.
  unfold formulas_added in *. simpl in *.
  rewrite C4, C1, C2, C5, B4, B1, B2, A1, A2. simpl.
  repeat split; try done.
  exists added. split; [|done]. by rewrite B6, A5.
Qed.

(** The rows of the state in which the executor returned from the append. *)
Lemma appended_rows self data :
  ws_rows (profiles_sheet
    (run_safe_update (profiles_append_row (projected cs self data)) self).1)
  = match append_outcome cs self data with
    | Some _ => ws_rows (profiles_sheet self) ++ [projected cs self data]
    | None => ws_rows (profiles_sheet self)
    end.
Proof.
  destruct (run_append_row (projected cs self data) self)
    as (_ & _ & _ & _ & _ & A6). exact A6.
Qed.

(** *** Consequences shared by the statements below *)



Lemma changed_indices_projected self data :
  changed_indices cs (before_snapshot cs (projected cs self data))
                  (projected cs self data) = [].
Proof.
  apply changed_indices_same. intros idx col Hcol.
  unfold stored_cell, projected. by rewrite (row_values_lookup _ _ _ Hcol).
Qed.

(** The unchanged outcome touches neither the Profiles table nor the
    index; it writes at most one row, to the log. *)
Lemma unchanged_effects self data existing :
  has_nickname data →
  existing_profiles self !! identity_of data = Some existing →
  changed_indices cs (before_snapshot cs (entry_data existing))
                  (projected cs self data) = [] →
  ∃ self',
    write_profile cs self data
    = (self', tagged self data,
       {| status := "unchanged"; error := None; changed_fields := [] |})
    ∧ profiles_sheet self' = profiles_sheet self
    ∧ existing_profiles self' = existing_profiles self
    ∧ tags_mapping self' = tags_mapping self
    ∧ (log_sheet self' = log_sheet self
       ∨ ∃ row, log_sheet self' = ws_append_row row <$> log_sheet self
                ∧ row !! 1 = Some (nickname_of data)
                ∧ row !! 2 = Some "UNCHANGED")
    ∧ (log_sheet self = None → self' = self).
Proof.
  intros Hn Hidx Hsame.
  rewrite (write_profile_unchanged self data existing Hn Hidx Hsame).
  eexists. split; [reflexivity|].
  match goal with
  | |- context [log_change cs ?n ?k ?f ?b ?a ?s] =>
      destruct (log_change_frame n k f b a s) as ((C1 & C2 & C3 & C4) & C5 & C6);
      pose proof (log_change_writes n k f b a s) as C7
  end.
  simpl in *. auto 10.
Qed.

(** After a call with a nickname, the index holds for the identity a row
    from which the projected row does not differ, and the tags are as
    before. *)
Lemma after_write_settled self data :
  has_nickname data →
  let self1 := (write_profile cs self data).1.1 in
  tags_mapping self1 = tags_mapping self
  ∧ ∃ e, existing_profiles self1 !! identity_of data = Some e
         ∧ changed_indices cs (before_snapshot cs (entry_data e))
                           (projected cs self data) = [].
Proof.
  intros Hn. simpl.
  destruct (existing_profiles self !! identity_of data) as [existing|] eqn:Hidx.
  - destruct (changed_indices cs (before_snapshot cs (entry_data existing))
                (projected cs self data)) as [|i0 rest] eqn:Hci.
    + destruct (unchanged_effects self data existing Hn Hidx Hci)
        as (self' & -> & _ & E & T & _). simpl. split; [done|].
      exists existing. by rewrite E.
    + destruct (write_profile_updated self data existing Hn Hidx)
        as (self' & -> & _ & _ & E & T); [by rewrite Hci|].
      simpl. split; [done|]. eexists. rewrite E, lookup_insert_eq.
      split; [reflexivity|]. apply changed_indices_projected.
  - destruct (write_profile_new self data Hn Hidx)
      as (self' & -> & _ & _ & E & T).
    simpl. split; [done|]. eexists. rewrite E, lookup_insert_eq.
    split; [reflexivity|]. apply changed_indices_projected.
Qed.

(** Writing, after a record, a record of the same identity and the same
    projected row is a no-op on the index and on the Profiles table,
    whatever happened in between to anything but the index and the tags. *)
Lemma rewrite_unchanged self data data' self1 :
  has_nickname data → has_nickname data' →
  identity_of data' = identity_of data →
  (∀ self0, tags_mapping self0 = tags_mapping self →
            projected cs self0 data' = projected cs self data) →
  existing_profiles self1 = existing_profiles (write_profile cs self data).1.1 →
  tags_mapping self1 = tags_mapping self →
  ∃ self2,
    write_profile cs self1 data'
    = (self2, tagged self1 data',
       {| status := "unchanged"; error := None; changed_fields := [] |})
    ∧ profiles_sheet self2 = profiles_sheet self1
    ∧ existing_profiles self2 = existing_profiles self1.
Proof.
  intros Hn Hn' Hid Hproj E1 T1.
  destruct (after_write_settled self data Hn) as (_ & e & He & Hci).
  destruct (unchanged_effects self1 data' e Hn') as (self2 & Hw & P & E & _).
  - by rewrite Hid, E1.
  - by rewrite (Hproj self1 T1).
  - exists self2. auto.
Qed.

(** The record as the call leaves it. *)
Lemma write_profile_record self data :
  (write_profile cs self data).1.2
  = if Py.truthy (nickname_of data) then tagged self data else data.
Proof.
  destruct (Py.truthy (nickname_of data)) eqn:Hn.
  - destruct (existing_profiles self !! identity_of data) as [existing|] eqn:Hidx.
    + destruct (changed_indices cs (before_snapshot cs (entry_data existing))
                  (projected cs self data)) as [|i0 rest] eqn:Hci.
      * by rewrite (write_profile_unchanged self data existing Hn Hidx Hci).
      * destruct (write_profile_updated self data existing Hn Hidx)
          as (self' & -> & _); [by rewrite Hci | done].
    + by destruct (write_profile_new self data Hn Hidx) as (self' & -> & _).
  - by rewrite (write_profile_missing self data Hn).
Qed.

End ReconcileFacts.

(** ** Reconciliation outcomes *)










(** C3, as the code has it.  For a record with a nickname whose identity is
    in the index and whose projected row equals the stored one in every
    column (a cell the stored row lacks reading as the empty string): the
    result is "unchanged" with no changed field; the Profiles table and
    the index are as before; the only remote write is the UNCHANGED row the
    call appends to the Log table through the executor, and without a Log
    table nothing at all changes. *)
Theorem write_profile_same_record (cs : core_scraper) self data existing :
  has_nickname data →
  existing_profiles self !! identity_of data = Some existing →
  (∀ idx, idx < length (COLUMN_ORDER cs) →
          stored_cell (entry_data existing) idx
          = stored_cell (projected cs self data) idx) →
  ∃ self',
    write_profile cs self data
    = (self', tagged self data,
       {| status := "unchanged"; error := None; changed_fields := [] |})
    ∧ profiles_sheet self' = profiles_sheet self
    ∧ existing_profiles self' = existing_profiles self
    ∧ (log_sheet self' = log_sheet self
       ∨ ∃ row, log_sheet self' = ws_append_row row <$> log_sheet self
                ∧ row !! 1 = Some (nickname_of data)
                ∧ row !! 2 = Some "UNCHANGED")
    ∧ (log_sheet self = None → self' = self).
Proof.
  intros Hn Hidx Hsame.
  destruct (unchanged_effects cs self data existing Hn Hidx)
    as (self' & Hw & P & E & _ & L & N).
  - apply changed_indices_same. intros idx col Hcol.
    rewrite (Hsame idx) by (by eapply lookup_lt_Some).
    unfold stored_cell, projected. by rewrite (row_values_lookup _ _ _ _ Hcol).
  - exists self'. auto.
Qed.

Lemma write_profile_same_record_witness :
  ∃ self',
    write_profile sample_scraper (bob_known []) sample_record
    = (self', tagged (bob_known []) sample_record,
       {| status := "unchanged"; error := None; changed_fields := [] |})
    ∧ profiles_sheet self' = profiles_sheet (bob_known [])
    ∧ existing_profiles self' = existing_profiles (bob_known [])
    ∧ (log_sheet self' = log_sheet (bob_known [])
       ∨ ∃ row, log_sheet self' = ws_append_row row <$> log_sheet (bob_known [])
                ∧ row !! 1 = Some (nickname_of sample_record)
                ∧ row !! 2 = Some "UNCHANGED")
    ∧ (log_sheet (bob_known []) = None → self' = bob_known []).
Proof.
  apply (write_profile_same_record sample_scraper
           (bob_known []) sample_record bob_entry).
  - vm_compute. reflexivity.
  - vm_compute. reflexivity.
  - intros idx Hlt.
    do 6 (destruct idx as [|idx]; [vm_compute; reflexivity|]).
    simpl in Hlt. lia.
Defined.

(** C3 as stated fails in its last part: the record equals the stored
    snapshot in every column and the result is "unchanged", yet the call has
    written a row to the Log table. *)
Lemma write_profile_same_record_counterexample :
  let self := bob_known [] in
  let r := write_profile sample_scraper self sample_record in
  existing_profiles self !! identity_of sample_record = Some bob_entry
  ∧ projected sample_scraper self sample_record = entry_data bob_entry
  ∧ status r.2 = "unchanged"
  ∧ (ws_rows <$> log_sheet r.1.1)
    = (λ ws, ws_rows ws ++ [["06-Nov-26 09:00 AM"; "Bob"; "UNCHANGED"; "-";
                              "{...}"; "{...}"]]) <$> log_sheet self
  ∧ log_sheet r.1.1 ≠ log_sheet self.
Proof. vm_compute. repeat split; discriminate. Qed.





(** ** The record *)

(** C9, as the code has it.  A call changes the record it is given at one
    key only: when the record has a nickname, TAGS is set to the tags
    resolved for it; every other entry is as before, and a record without
    nickname is not changed at all. *)
Theorem write_profile_record_frame (cs : core_scraper) self data :
  let data' := (write_profile cs self data).1.2 in
  (∀ k, k ≠ "TAGS" → data' !! k = data !! k)
  ∧ (has_nickname data →
     data' !! "TAGS"
     = Some (get_tags_for_nickname (tags_mapping self) (nickname_of data)))
  ∧ (nickname_of data = EmptyString → data' = data).
Proof.
  simpl. rewrite write_profile_record. split; [|split].
  - intros k Hk. destruct (Py.truthy (nickname_of data)); [|done].
    unfold tagged. by rewrite lookup_insert_ne.
  - intros ->. unfold tagged. by rewrite lookup_insert_eq.
  - by intros ->.
Qed.

Lemma write_profile_record_frame_witness :
  (write_profile sample_scraper (sample_manager []) sample_record).1.2 !! "CITY"
  = sample_record !! "CITY"
  ∧ (write_profile sample_scraper (sample_manager []) sample_record).1.2 !! "TAGS"
    = Some (get_tags_for_nickname (tags_mapping (sample_manager []))
              (nickname_of sample_record)).
Proof.
  destruct (write_profile_record_frame sample_scraper (sample_manager [])
              sample_record) as (Hother & Htags & _).
  split.
  - apply Hother. discriminate.
  - apply Htags. vm_compute. reflexivity.
Defined.

(** C9 as stated fails: after the call the record holds an entry under TAGS
    that it did not hold before. *)
Lemma write_profile_record_counterexample :
  sample_record !! "TAGS" = None
  ∧ (write_profile sample_scraper (sample_manager []) sample_record).1.2 !! "TAGS"
    = Some "Flagged"
  ∧ (write_profile sample_scraper (sample_manager []) sample_record).1.2
    ≠ sample_record.
Proof.
  split; [by vm_compute|]. split; [by vm_compute|].
  intros Heq.
  assert (H : (write_profile sample_scraper (sample_manager []) sample_record).1.2
              !! "TAGS" = sample_record !! "TAGS") by (by rewrite Heq).
  vm_compute in H. discriminate.
Qed.

(** ** Link-bearing columns *)

Section LinkColumns.
Variable cs : core_scraper.

Lemma urls_only_nickname d1 d2 :
  differ_in_urls_only d1 d2 → nickname_of d1 = nickname_of d2.
Proof.
  intros H. unfold nickname_of, Py.get_or_empty.
  destruct (H "NICK NAME") as [-> | (Hin & _)]; [done|].
  rewrite !elem_of_cons, elem_of_nil in Hin.
  destruct Hin as [?|[?|[?|[]]]]; discriminate.
Qed.

Lemma urls_only_tagged self d1 d2 :
  differ_in_urls_only d1 d2 →
  differ_in_urls_only (tagged self d1) (tagged self d2).
Proof.
  intros H k. unfold tagged. rewrite (urls_only_nickname d1 d2 H).
  destruct (decide (k = "TAGS")) as [-> | Hk].
  - left. by rewrite !lookup_insert_eq.
  - unfold Py.truthy_get. rewrite !lookup_insert_ne by done. apply H.
Qed.

Lemma urls_only_cell_value d1 d2 col :
  differ_in_urls_only d1 d2 → cell_value cs d1 col = cell_value cs d2 col.
Proof.
  intros H. unfold cell_value.
  destruct (String.eqb col "IMAGE") eqn:E1; [done|].
  assert (Ht : Py.truthy_get d1 col = Py.truthy_get d2 col).
  { destruct (H col) as [Heq | (_ & -> & ->)]; [|done].
    unfold Py.truthy_get. by rewrite Heq. }
  destruct (String.eqb col "PROFILE LINK") eqn:E2; [by rewrite Ht|].
  destruct (String.eqb col "LAST POST") eqn:E3; [by rewrite Ht|].
  destruct (H col) as [Heq | (Hin & _)].
  - unfold Py.get_or_empty. by rewrite Heq.
  - apply String.eqb_neq in E1, E2, E3.
    rewrite !elem_of_cons, elem_of_nil in Hin.
    destruct Hin as [?|[?|[?|[]]]]; congruence.
Qed.

Lemma urls_only_projected self d1 d2 :
  differ_in_urls_only d1 d2 → projected cs self d1 = projected cs self d2.
Proof.
  intros H. unfold projected, row_values. apply list_fmap_ext.
  intros i col _. apply urls_only_cell_value. by apply urls_only_tagged.
Qed.

(** The result of a call depends on the record through its nickname and
    its projected row only. *)
Lemma write_profile_result_ext self d1 d2 :
  nickname_of d1 = nickname_of d2 →
  projected cs self d1 = projected cs self d2 →
  (write_profile cs self d1).2 = (write_profile cs self d2).2.
Proof.
  intros Hnick Hproj.
  assert (Hid : identity_of d1 = identity_of d2)
    by (unfold identity_of; by rewrite Hnick).
  destruct (Py.truthy (nickname_of d1)) eqn:Hn1.
  - assert (Hn2 : has_nickname d2) by (unfold has_nickname; by rewrite <- Hnick).
    destruct (existing_profiles self !! identity_of d1) as [existing|] eqn:Hidx.
    + destruct (changed_indices cs (before_snapshot cs (entry_data existing))
                  (projected cs self d1)) as [|i0 rest] eqn:Hci.
      * rewrite (write_profile_unchanged cs self d1 existing Hn1 Hidx Hci).
        rewrite Hid in Hidx. rewrite Hproj in Hci.
        by rewrite (write_profile_unchanged cs self d2 existing Hn2 Hidx Hci).
      * destruct (write_profile_updated cs self d1 existing Hn1 Hidx)
          as (s1 & -> & _); [by rewrite Hci|].
        rewrite Hid in Hidx.
        destruct (write_profile_updated cs self d2 existing Hn2 Hidx)
          as (s2 & -> & _); [by rewrite <- Hproj, Hci|].
        simpl. by rewrite Hproj.
    + destruct (write_profile_new cs self d1 Hn1 Hidx) as (s1 & -> & _).
      rewrite Hid in Hidx.
      by destruct (write_profile_new cs self d2 Hn2 Hidx) as (s2 & -> & _).
  - rewrite (write_profile_missing cs self d1 Hn1).
    rewrite Hnick in Hn1. by rewrite (write_profile_missing cs self d2 Hn1).
Qed.

End LinkColumns.

(** C10.  The cell of IMAGE is always empty, that of PROFILE LINK and of
    LAST POST is a fixed word when the field holds a value and empty
    otherwise.  Hence two records that differ only in the URLs under these
    three fields, non-empty in both, have the same projected row and get the
    same result from any state; and once one of them has been written,
    writing the other answers "unchanged". *)
Theorem write_profile_ignores_link_urls (cs : core_scraper) self d1 d2 :
  differ_in_urls_only d1 d2 →
  (∀ d, cell_value cs d "IMAGE" = EmptyString
        ∧ cell_value cs d "PROFILE LINK"
          = (if Py.truthy_get d "PROFILE LINK" then "Profile" else EmptyString)
        ∧ cell_value cs d "LAST POST"
          = (if Py.truthy_get d "LAST POST" then "Post" else EmptyString))
  ∧ projected cs self d1 = projected cs self d2
  ∧ (write_profile cs self d1).2 = (write_profile cs self d2).2
  ∧ (has_nickname d1 →
     (write_profile cs (write_profile cs self d1).1.1 d2).2
     = {| status := "unchanged"; error := None; changed_fields := [] |}).
Proof.
  intros H. split; [by intros d|]. split; [by apply urls_only_projected|].
  split.
  - apply write_profile_result_ext;
      [by apply urls_only_nickname | by apply urls_only_projected].
  - intros Hn.
    destruct (after_write_settled cs self d1 Hn) as (T & _).
    destruct (rewrite_unchanged cs self d1 d2 (write_profile cs self d1).1.1 Hn)
      as (self2 & -> & _);
      [| | |reflexivity|exact T|done].
    + unfold has_nickname. by rewrite <- (urls_only_nickname d1 d2 H).
    + unfold identity_of. by rewrite (urls_only_nickname d1 d2 H).
    + intros self0 T0. rewrite <- (urls_only_projected cs self0 d1 d2 H).
      unfold projected, tagged. by rewrite T0.
Qed.

Lemma write_profile_ignores_link_urls_witness :
  projected sample_scraper (sample_manager []) sample_record
  = projected sample_scraper (sample_manager []) sample_record_relinked
  ∧ (write_profile sample_scraper
       (write_profile sample_scraper (sample_manager []) sample_record).1.1
       sample_record_relinked).2
    = {| status := "unchanged"; error := None; changed_fields := [] |}.
Proof.
  destruct (write_profile_ignores_link_urls sample_scraper (sample_manager [])
              sample_record sample_record_relinked) as (_ & Hp & _ & Hu).
  - intros k. unfold sample_record_relinked.
    destruct (decide (k = "IMAGE")) as [-> | H1];
      [right; split; [set_solver | by vm_compute] |].
    destruct (decide (k = "PROFILE LINK")) as [-> | H2];
      [right; split; [set_solver | by vm_compute] |].
    left. by rewrite !lookup_insert_ne.
  - split; [exact Hp | apply Hu; vm_compute; reflexivity].
Defined.

(** * Further properties of the manager *)

(** ** Loading the index *)

Lemma index_row_identity m idx row :
  index_row m (idx, row)
  = match row_identity row with
    | Some n => <[n := {| entry_row := idx; entry_data := row |}]> m
    | None => m
    end.
Proof.
  unfold index_row, row_identity.
  destruct row as [|c0 [|c1 row]]; simpl; try case_bool_decide; try done.
  by destruct (Py.truthy (Py.lower (Py.strip c1))).
Qed.

Lemma enumerate_from_lookup {A} start (l : list A) i :
  enumerate_from start l !! i = (λ x, (start + i, x)) <$> l !! i.
Proof. unfold enumerate_from. by rewrite list_lookup_imap. Qed.

(** Where an entry found after the loop comes from: it was there before and
    no row carries its identity, or it is the last row that does. *)
Lemma foldl_index_row_lookup (l : list (nat * list string)) : ∀ m n e,
  foldl index_row m l !! n = Some e →
  (m !! n = Some e ∧ ∀ i c, l !! i = Some c → row_identity c.2 ≠ Some n)
  ∨ ∃ i c, l !! i = Some c ∧ row_identity c.2 = Some n
           ∧ e = {| entry_row := c.1; entry_data := c.2 |}
           ∧ ∀ j c', i < j → l !! j = Some c' → row_identity c'.2 ≠ Some n.
Proof.
  induction l as [|[idx row] l IH] using rev_ind; intros m n e Hl.
  - left. split; [done|]. intros i c Hc. by rewrite lookup_nil in Hc.
  - rewrite foldl_snoc, index_row_identity in Hl.
    destruct (decide (row_identity row = Some n)) as [Hk|Hk].
    + rewrite Hk, lookup_insert_eq in Hl. injection Hl as <-.
      right. exists (length l), (idx, row).
      split; [apply lookup_snoc_Some; by right|].
      split; [done|]. split; [done|].
      intros j c' Hj Hc'. apply lookup_lt_Some in Hc'.
      rewrite length_app in Hc'. simpl in Hc'. lia.
    + assert (Hl' : foldl index_row m l !! n = Some e).
      { destruct (row_identity row) as [k|]; [|done].
        rewrite lookup_insert_ne in Hl; [done | congruence]. }
      destruct (IH m n e Hl') as [[Hm Hno] | (i & c & Hc & Hid & He & Hlast)].
      * left. split; [done|]. intros i c Hc.
        apply lookup_snoc_Some in Hc as [[_ Hc] | [_ <-]]; [by eapply Hno | done].
      * right. exists i, c. split; [by apply lookup_app_l_Some|].
        split; [done|]. split; [done|].
        intros j c' Hj Hc'.
        apply lookup_snoc_Some in Hc' as [[_ Hc'] | [_ <-]];
          [by eapply Hlast | done].
Qed.



(** The row an entry of the loaded index was read from. *)
Lemma load_existing_profiles_source all_values n e :
  load_existing_profiles all_values !! n = Some e →
  ∃ i, entry_row e = 2 + i
       ∧ all_values !! (1 + i) = Some (entry_data e)
       ∧ row_identity (entry_data e) = Some n
       ∧ ∀ j row, i < j → all_values !! (1 + j) = Some row →
                  row_identity row ≠ Some n.
Proof.
  intros Hl. unfold load_existing_profiles in Hl.
  apply foldl_index_row_lookup in Hl
    as [[Hm _] | (i & [idx row] & Hc & Hid & -> & Hlast)];
    [by rewrite lookup_empty in Hm|].
  rewrite enumerate_from_lookup, lookup_drop in Hc.
  destruct (all_values !! (1 + i)) as [row'|] eqn:Hrow; [|done].
  injection Hc as <- <-. simpl in *.
  exists i. repeat split; try done.
  intros j row Hj Hrowj.
  apply (Hlast j (2 + j, row) Hj).
  rewrite enumerate_from_lookup, lookup_drop.
  change (1 + j) with (S j). by rewrite Hrowj.
Qed.




(** ** Every outcome of [write_profile] at once *)

Section Outcomes.
Variable cs : core_scraper.

(** The four ways a call can go, with what each leaves behind. *)
Lemma write_profile_cases self data :
  (Py.truthy (nickname_of data) = false
   ∧ write_profile cs self data
     = (self, data,
        {| status := "error"; error := Some "Missing nickname";
           changed_fields := [] |}))
  ∨ (has_nickname data
     ∧ ∃ existing self',
         existing_profiles self !! identity_of data = Some existing
         ∧ changed_indices cs (before_snapshot cs (entry_data existing))
                           (projected cs self data) = []
         ∧ write_profile cs self data
           = (self', tagged self data,
              {| status := "unchanged"; error := None; changed_fields := [] |})
         ∧ profiles_sheet self' = profiles_sheet self
         ∧ existing_profiles self' = existing_profiles self
         ∧ tags_mapping self' = tags_mapping self)
  ∨ (has_nickname data
     ∧ ∃ existing self',
         existing_profiles self !! identity_of data = Some existing
         ∧ changed_indices cs (before_snapshot cs (entry_data existing))
                           (projected cs self data) ≠ []
         ∧ write_profile cs self data
           = (self', tagged self data,
              {| status := "updated"; error := None;
                 changed_fields :=
                   (λ idx, default EmptyString (COLUMN_ORDER cs !! idx))
                     <$> changed_indices cs
                           (before_snapshot cs (entry_data existing))
                           (projected cs self data) |})
         ∧ append_effects cs self data self')
  ∨ (has_nickname data
     ∧ existing_profiles self !! identity_of data = None
     ∧ ∃ self',
         write_profile cs self data
         = (self', tagged self data,
            {| status := "new"; error := None;
               changed_fields := COLUMN_ORDER cs |})
         ∧ append_effects cs self data self').
Proof.
  destruct (Py.truthy (nickname_of data)) eqn:Hn.
  - destruct (existing_profiles self !! identity_of data) as [existing|] eqn:Hidx.
    + destruct (changed_indices cs (before_snapshot cs (entry_data existing))
                  (projected cs self data)) as [|i0 rest] eqn:Hci.
      * right. left. split; [done|].
        destruct (unchanged_effects cs self data existing Hn Hidx Hci)
          as (self' & Hw & P & E & T & _).
        exists existing, self'. by rewrite Hci.
      * right. right. left. split; [done|].
        destruct (write_profile_updated cs self data existing Hn Hidx)
          as (self' & Hw & Ha); [by rewrite Hci|].
        exists existing, self'. rewrite Hci in *. done.
    + right. right. right. split; [done|]. split; [done|].
      destruct (write_profile_new cs self data Hn Hidx) as (self' & Hw & Ha).
      by exists self'.
  - left. split; [done|]. by apply write_profile_missing.
Qed.







(** X4.  Whatever the outcome and whatever the remote store does, a call
    changes the index at the identity of the record at most: every other
    entry is as before, no entry is ever removed, and the tag mapping is not
    touched. *)
Theorem write_profile_index_frame self data :
  let self' := (write_profile cs self data).1.1 in
  (∀ k, k ≠ identity_of data →
        existing_profiles self' !! k = existing_profiles self !! k)
  ∧ (∀ k, is_Some (existing_profiles self !! k) →
          is_Some (existing_profiles self' !! k))
  ∧ tags_mapping self' = tags_mapping self.
Proof.
  destruct (write_profile_cases self data)
    as [(Hn & ->) | [(Hn & existing & self' & Hidx & Hci & -> & _ & E & T)
       | [(Hn & existing & self' & Hidx & Hci & -> & _ & _ & E & T)
       | (Hn & Hidx & self' & -> & _ & _ & E & T)]]];
    simpl; rewrite ?E; try done.
  - split; [|split; [|done]].
    + intros k Hk. by rewrite lookup_insert_ne.
    + intros k Hk. destruct (decide (identity_of data = k)) as [<-|Hne];
        [by rewrite lookup_insert_eq | by rewrite lookup_insert_ne].
  - split; [|split; [|done]].
    + intros k Hk. by rewrite lookup_insert_ne.
    + intros k Hk. destruct (decide (identity_of data = k)) as [<-|Hne];
        [by rewrite lookup_insert_eq | by rewrite lookup_insert_ne].
Qed.


(** X6.  Index coherence is kept by every call whose append, if it gets
    that far, takes effect: when each entry of the index names a row of the
    table and holds its cells, the same is true after the call, the entry of
    the written identity naming the new last row. *)
Theorem write_profile_keeps_coherence self data :
  index_coherent self →
  (reaches_append cs self data → append_outcome cs self data = Some tt) →
  index_coherent (write_profile cs self data).1.1.
Proof.
  intros Hco Hok.
  assert (Happ : ∀ self', has_nickname data →
    match existing_profiles self !! identity_of data with
    | None => True
    | Some existing =>
        changed_indices cs (before_snapshot cs (entry_data existing))
                        (projected cs self data) ≠ []
    end →
    append_effects cs self data self' → index_coherent self').
  { intros self' Hn Hreach (R & _ & E & _).
    rewrite appended_rows, (Hok (conj Hn Hreach)) in R, E.
    intros n e. rewrite E, R.
    destruct (decide (identity_of data = n)) as [<-|Hne].
    - rewrite lookup_insert_eq. intros [= <-]. simpl.
      rewrite length_app. simpl. split; [lia|].
      replace (length (ws_rows (profiles_sheet self)) + 1 - 1)
        with (length (ws_rows (profiles_sheet self))) by lia.
      apply lookup_snoc_Some. by right.
    - rewrite lookup_insert_ne by done. intros He.
      destruct (Hco n e He) as [H1 Hrow]. split; [done|].
      by apply lookup_app_l_Some. }
  destruct (write_profile_cases self data)
    as [(Hn & ->) | [(Hn & existing & self' & Hidx & Hci & -> & P & E & _)
       | [(Hn & existing & self' & Hidx & Hci & -> & Ha)
       | (Hn & Hidx & self' & -> & Ha)]]]; simpl.
  - exact Hco.
  - intros n e. rewrite E, P. apply Hco.
  - apply Happ; [done | by rewrite Hidx | done].
  - apply Happ; [done | by rewrite Hidx | done].
Qed.

(** X7.  The value a caller puts under TAGS is never used: a record with
    a nickname gives the same state, the same record and the same result
    whatever it holds under TAGS. *)
Theorem write_profile_ignores_given_tags self data t :
  has_nickname data →
  write_profile cs self (<["TAGS" := t]> data) = write_profile cs self data.
Proof.
  intros Hn. unfold has_nickname, nickname_of in Hn.
  assert (Hget : Py.get_or_empty (<["TAGS" := t]> data) "NICK NAME"
                 = Py.get_or_empty data "NICK NAME").
  { unfold Py.get_or_empty. by rewrite lookup_insert_ne. }
  unfold write_profile. cbv zeta.
  rewrite Hget, Hn. cbn [negb].
  by rewrite insert_insert_eq.
Qed.

(** The state a call leaves when it answers "new". *)
Lemma write_profile_new_state self data :
  has_nickname data →
  existing_profiles self !! identity_of data = None →
  (write_profile cs self data).1.1
  = let s1 := after_append cs self data in
    let new_row := length (ws_rows (profiles_sheet s1)) in
    let s2 := apply_link_formulas cs new_row (tagged self data) s1 in
    log_change cs (nickname_of data) "NEW" (COLUMN_ORDER cs) None
      (Some (after_snapshot cs (tagged self data)))
      (set_existing_profiles
         (<[identity_of data :=
              {| entry_row := new_row; entry_data := projected cs self data |}]>
            (existing_profiles s2)) s2).
Proof.
  intros Hn Hidx. unfold write_profile. cbv zeta.
  change (Py.strip (Py.get_or_empty data "NICK NAME")) with (nickname_of data).
  rewrite Hn. cbn [negb].
  change (Py.lower (nickname_of data)) with (identity_of data).
  by rewrite Hidx.
Qed.

(** The state a call leaves when it answers "updated". *)
Lemma write_profile_updated_state self data existing :
  has_nickname data →
  existing_profiles self !! identity_of data = Some existing →
  changed_indices cs (before_snapshot cs (entry_data existing))
                  (projected cs self data) ≠ [] →
  (write_profile cs self data).1.1
  = let s1 := after_append cs self data in
    let new_row := length (ws_rows (profiles_sheet s1)) in
    let s2 := apply_link_formulas cs new_row (tagged self data) s1 in
    let s3 :=
      log_change cs (nickname_of data) "UPDATED"
        ((λ idx, default EmptyString (COLUMN_ORDER cs !! idx))
           <$> changed_indices cs (before_snapshot cs (entry_data existing))
                               (projected cs self data))
        (Some (before_snapshot cs (entry_data existing)))
        (Some (after_snapshot cs (tagged self data))) s2 in
    set_existing_profiles
      (<[identity_of data :=
           {| entry_row := new_row; entry_data := projected cs self data |}]>
         (existing_profiles s3)) s3.
Proof.
  intros Hn Hidx Hci. unfold write_profile. cbv zeta.
  change (Py.strip (Py.get_or_empty data "NICK NAME")) with (nickname_of data).
  rewrite Hn. cbn [negb].
  change (Py.lower (nickname_of data)) with (identity_of data).
  rewrite Hidx.
  change (<["TAGS" := get_tags_for_nickname (tags_mapping self) (nickname_of data)]> data)
    with (tagged self data).
  change (row_values cs (tagged self data)) with (projected cs self data).
  destruct (changed_indices cs (before_snapshot cs (entry_data existing))
              (projected cs self data)) as [|i0 rest] eqn:E; [done|].
  reflexivity.
Qed.

(** With nothing left in the fault plan a remote call takes effect at the
    first attempt. *)
Lemma run_safe_update_no_fault effect self :
  faults self = [] →
  run_safe_update (remote_call effect) self
  = (add_trace [Sleep SHEET_WRITE_DELAY] (effect self), Some tt).
Proof.
  intros Hf. unfold run_safe_update, safe_update, default_max_retries.
  cbn [seq safe_update_loop]. unfold remote_call at 1. by rewrite Hf.
Qed.

Lemma link_formulas_no_fault row_idx data cols : ∀ self,
  faults self = [] →
  let self' := foldl (apply_link_formula cs row_idx data) self cols in
  faults self' = []
  ∧ ws_rows (profiles_sheet self') = ws_rows (profiles_sheet self)
  ∧ ws_formulas (profiles_sheet self')
    = ws_formulas (profiles_sheet self)
      ++ omap (λ col_name,
                 if Py.truthy_get data col_name
                 then Some (column_letter cs (COLUMN_TO_INDEX cs col_name), row_idx,
                            link_formula col_name (Py.get_or_empty data col_name))
                 else None) cols.
Proof.
  induction cols as [|col cols IH]; intros self Hf; simpl.
  - by rewrite app_nil_r.
  - set (s1 := apply_link_formula cs row_idx data self col).
    assert (H1 : faults s1 = []
                 ∧ ws_rows (profiles_sheet s1) = ws_rows (profiles_sheet self)
                 ∧ ws_formulas (profiles_sheet s1)
                   = ws_formulas (profiles_sheet self)
                     ++ (if Py.truthy_get data col
                         then [(column_letter cs (COLUMN_TO_INDEX cs col), row_idx,
                                link_formula col (Py.get_or_empty data col))]
                         else [])).
    { unfold s1, apply_link_formula.
      destruct (Py.truthy_get data col); [|by rewrite app_nil_r].
      unfold profiles_update. by rewrite run_safe_update_no_fault. }
    destruct H1 as (F1 & R1 & C1).
    destruct (IH s1 F1) as (F2 & R2 & C2). simpl in *.
    split; [done|]. split; [congruence|].
    rewrite C2, C1, <- app_assoc. f_equal.
    by destruct (Py.truthy_get data col).
Qed.

Lemma apply_link_formulas_steps row_idx data self :
  faults self = [] →
  ws_formulas (profiles_sheet (apply_link_formulas cs row_idx data self))
  = ws_formulas (profiles_sheet self) ++ link_cells cs row_idx data
  ∧ ws_rows (profiles_sheet (apply_link_formulas cs row_idx data self))
    = ws_rows (profiles_sheet self).
Proof.
  intros Hf.
  destruct (link_formulas_no_fault row_idx data (LINK_COLUMNS cs) self Hf)
    as (F & R & C).
  unfold apply_link_formulas, link_cells. auto.
Qed.

(** X8.  With nothing left in the fault plan, [apply_link_formulas] writes
    exactly one formula per link column under which the record holds a
    value, in the order of LINK_COLUMNS, each at the cell of that column in
    the given row; it adds no row, and columns without value are skipped. *)
Theorem apply_link_formulas_no_fault row_idx data self :
  faults self = [] →
  let self' := apply_link_formulas cs row_idx data self in
  ws_formulas (profiles_sheet self')
  = ws_formulas (profiles_sheet self) ++ link_cells cs row_idx data
  ∧ ws_rows (profiles_sheet self') = ws_rows (profiles_sheet self)
  ∧ faults self' = [].
Proof.
  intros Hf.
  destruct (link_formulas_no_fault row_idx data (LINK_COLUMNS cs) self Hf)
    as (F & R & C).
  unfold apply_link_formulas, link_cells. auto.
Qed.


(** X10.  What a failed append leads to: when the executor gives up on
    the append and the fault plan is used up by then, the table keeps its
    rows and the link formulas of the record are written into the row that
    was last before the call, the header row when the table holds nothing
    else. *)
Theorem write_profile_failed_append_formulas self data :
  reaches_append cs self data →
  append_outcome cs self data = None →
  faults (after_append cs self data) = [] →
  let self' := (write_profile cs self data).1.1 in
  ws_rows (profiles_sheet self') = ws_rows (profiles_sheet self)
  ∧ ws_formulas (profiles_sheet self')
    = ws_formulas (profiles_sheet self)
      ++ link_cells cs (length (ws_rows (profiles_sheet self))) (tagged self data).
Proof.
  intros [Hn Hreach] Hfail Hplan.
  assert (Hs1 : ws_rows (profiles_sheet (after_append cs self data))
                = ws_rows (profiles_sheet self)
                ∧ ws_formulas (profiles_sheet (after_append cs self data))
                  = ws_formulas (profiles_sheet self)).
  { unfold after_append. rewrite appended_rows, Hfail.
    destruct (run_append_row (projected cs self data) self)
      as (_ & _ & _ & _ & A5 & _). auto. }
  destruct Hs1 as [R1 C1].
  destruct (apply_link_formulas_steps
              (length (ws_rows (profiles_sheet self))) (tagged self data)
              (after_append cs self data) Hplan) as (C2 & R2).
  destruct (existing_profiles self !! identity_of data) as [existing|] eqn:Hidx.
  - rewrite (write_profile_updated_state self data existing Hn Hidx Hreach).
    cbv zeta. rewrite R1. simpl.
    match goal with
    | |- context [log_change cs ?n ?k ?f ?b ?a ?s] =>
        destruct (log_change_frame cs n k f b a s) as (_ & -> & _)
    end.
    rewrite C2, R2, C1, R1. done.
  - rewrite (write_profile_new_state self data Hn Hidx).
    cbv zeta. rewrite R1.
    match goal with
    | |- context [log_change cs ?n ?k ?f ?b ?a ?s] =>
        destruct (log_change_frame cs n k f b a s) as (_ & -> & _)
    end.
    simpl. rewrite C2, R2, C1, R1. done.
Qed.

End Outcomes.

(** X11.  An index that is what [load_existing_profiles] computes from the
    rows of the Profiles table is coherent: each entry names a row of the
    table and holds its cells. *)
Theorem load_existing_profiles_coherent self :
  existing_profiles self = load_existing_profiles (ws_rows (profiles_sheet self)) →
  index_coherent self.
Proof.
  intros Hload n e He. rewrite Hload in He.
  destruct (load_existing_profiles_source _ n e He) as (i & Hrow & Hcells & _).
  split; [lia|]. by replace (entry_row e - 1) with (1 + i) by lia.
Qed.

(** ** The audit log *)



(** ** More on the executor *)

Section ExecutorBounds.
Context {S R : Type}.
Implicit Types (func : @operation S R) (s : S).

Lemma sum_list_cons x l : sum_list (x :: l) = x + sum_list l.
Proof. reflexivity. Qed.

Lemma safe_update_loop_backoff func m attempts : ∀ s,
  let evs := (safe_update_loop func m attempts s).1.2 in
  sum_list (backoff_sleeps evs) ≤ sum_list ((λ a, (a + 1) * 5) <$> attempts)
  ∧ length (backoff_sleeps evs) ≤ length attempts.
Proof.
  induction attempts as [|a rest IH]; intros s; [by split|].
  cbv zeta in *. rewrite fmap_cons, sum_list_cons. cbn [safe_update_loop length].
  destruct (func s) as [s' [r|e]].
  - change (backoff_sleeps _) with (@nil nat). cbn [length]. split; [|lia].
    change (sum_list []) with 0. lia.
  - destruct (is_rate_limit e).
    + destruct (IH s') as [IH1 IH2].
      destruct (safe_update_loop func m rest s') as [[s'' evs] r].
      cbn [fst snd] in *.
      change (backoff_sleeps (LogMsg (RateLimited ((a + 1) * 5))
                :: Sleep (WaitTime ((a + 1) * 5)) :: evs))
        with ((a + 1) * 5 :: backoff_sleeps evs).
      rewrite sum_list_cons. cbn [length]. split; lia.
    + destruct (a =? m - 1).
      * change (backoff_sleeps _) with (@nil nat). cbn [length]. split; [|lia].
        change (sum_list []) with 0. lia.
      * destruct (IH s') as [IH1 IH2]. split; lia.
Qed.

Lemma sum_backoff_seq n :
  2 * sum_list ((λ a, (a + 1) * 5) <$> seq 0 n) = 5 * n * (n + 1).
Proof.
  induction n as [|n IH]; [done|].
  rewrite seq_S, fmap_app, sum_list_with_app.
  change (sum_list_with id ((λ a, (a + 1) * 5) <$> [0 + n]))
    with ((0 + n + 1) * 5 + 0).
  change (sum_list_with id) with sum_list in *. lia.
Qed.

(** X13.  An executor call sleeps in backoff at most once per attempt and,
    in all, at most [5 * n * (n + 1) / 2] seconds for [n] attempts: at most
    thirty seconds with the default three. *)
Theorem safe_update_backoff_bound func max_retries s :
  let evs := (safe_update func max_retries s).1.2 in
  length (backoff_sleeps evs) ≤ max_retries
  ∧ 2 * sum_list (backoff_sleeps evs) ≤ 5 * max_retries * (max_retries + 1)
  ∧ (max_retries = default_max_retries → sum_list (backoff_sleeps evs) ≤ 30).
Proof.
  simpl. unfold safe_update.
  destruct (safe_update_loop_backoff func max_retries (seq 0 max_retries) s)
    as [Hsum Hlen].
  rewrite length_seq in Hlen.
  pose proof (sum_backoff_seq max_retries) as Hclosed.
  split; [done|]. split; [lia|].
  intros ->. unfold default_max_retries in *. lia.
Qed.


(** X15.  An executor call logs at most one failure line, and only when it
    returns nothing; an operation whose every failure is a rate limit is
    given up on without any failure line. *)
Theorem safe_update_failure_logs func max_retries s :
  let '(s', evs, r) := safe_update func max_retries s in
  length (failure_logs evs) ≤ 1
  ∧ (failure_logs evs ≠ [] → r = None)
  ∧ ((∀ s1 s2 e, func s1 = (s2, inr e) → is_rate_limit e = true) →
     failure_logs evs = []).
Proof.
  unfold safe_update. generalize (seq 0 max_retries) as attempts.
  intros attempts. revert s.
  induction attempts as [|a rest IH]; intros s.
  - simpl. split; [lia|]. split; done.
  - cbn [safe_update_loop]. destruct (func s) as [s' [r|e]] eqn:Hf.
    + simpl. split; [lia|]. split; done.
    + destruct (is_rate_limit e) eqn:He.
      * specialize (IH s').
        destruct (safe_update_loop func max_retries rest s') as [[s'' evs] r].
        exact IH.
      * destruct (a =? max_retries - 1); [|apply IH].
        simpl. split; [lia|]. split; [done|].
        intros Hall. specialize (Hall s s' e Hf). congruence.
Qed.

End ExecutorBounds.

(** ** More on the tag resolver *)

Lemma append_tags_app entry l1 l2 :
  append_tags (append_tags entry l1) l2 = append_tags entry (l1 ++ l2).
Proof. unfold append_tags. by rewrite foldl_app. Qed.

Lemma tag_cell_lookup t c (m : gmap string string) row n :
  tag_cell t c m row !! n = append_tags (m !! n) (cell_hits t c n row).
Proof.
  unfold tag_cell, cell_hits, holds_identity.
  destruct (row !! c) as [cell|]; [|done].
  destruct (Py.truthy (Py.strip cell)); simpl; [|done].
  case_bool_decide as Hn.
  - subst n. simpl.
    destruct (m !! Py.lower (Py.strip cell)); by rewrite lookup_insert_eq.
  - simpl. destruct (m !! Py.lower (Py.strip cell)); by rewrite lookup_insert_ne.
Qed.

Lemma tag_rows_lookup t c rows n : ∀ m : gmap string string,
  foldl (tag_cell t c) m rows !! n
  = append_tags (m !! n) (flat_map (cell_hits t c n) rows).
Proof.
  induction rows as [|row rows IH]; intros m; [done|].
  simpl. by rewrite IH, tag_cell_lookup, append_tags_app.
Qed.

Lemma tag_column_lookup rows col (m : gmap string string) n :
  tag_column rows m col !! n = append_tags (m !! n) (tag_hits rows n col).
Proof.
  destruct col as [c tag]. unfold tag_column, tag_hits. simpl.
  destruct (Py.truthy (Py.strip tag)) eqn:Ht.
  - rewrite (strip_truthy _ Ht). simpl. apply tag_rows_lookup.
  - by rewrite orb_true_r.
Qed.

Lemma tag_columns_lookup rows cols n : ∀ m : gmap string string,
  foldl (tag_column rows) m cols !! n
  = append_tags (m !! n) (flat_map (tag_hits rows n) cols).
Proof.
  induction cols as [|col cols IH]; intros m; [done|].
  simpl. by rewrite IH, tag_column_lookup, append_tags_app.
Qed.

Lemma load_tags_mapping_lookup all_data (m : gmap string string) n :
  load_tags_mapping (Some all_data) m !! n
  = append_tags (m !! n) (tags_listed all_data n).
Proof.
  destruct (decide (length all_data < 2)) as [Hlen|Hlen].
  - by rewrite load_tags_mapping_short, tags_listed_short.
  - unfold load_tags_mapping, tags_listed.
    case_bool_decide as Hnil; [subst; simpl in Hlen; lia|].
    destruct (length all_data <? 2) eqn:E; [apply Nat.ltb_lt in E; lia|].
    simpl. apply tag_columns_lookup.
Qed.

Lemma append_tags_some old tags :
  tags ≠ [] →
  append_tags (Some old) tags = Some (old +:+ ", " +:+ Py.join ", " tags).
Proof.
  revert old. induction tags as [|t tags IH]; intros old Hne; [done|].
  destruct tags as [|t' tags]; [done|].
  change (append_tags (Some old) (t :: t' :: tags))
    with (append_tags (Some (old +:+ ", " +:+ t)) (t' :: tags)).
  rewrite IH by done.
  change (Py.join ", " (t :: t' :: tags))
    with (t +:+ ", " +:+ Py.join ", " (t' :: tags)).
  by rewrite !string_app_assoc.
Qed.

Lemma append_tags_none tags :
  tags ≠ [] → append_tags None tags = Some (Py.join ", " tags).
Proof.
  intros Hne. destruct tags as [|t tags]; [done|].
  destruct tags as [|t' tags]; [done|].
  change (append_tags None (t :: t' :: tags))
    with (append_tags (Some t) (t' :: tags)).
  by rewrite append_tags_some.
Qed.

(** X16.  Loading the Tags table does not reset the mapping, it adds to
    it: an identity the table does not list keeps the entry it had, and one
    the table lists gets its tags appended, after a comma and a space, to
    whatever it had.  Loading the same table twice therefore repeats every
    tag. *)
Theorem load_tags_mapping_accumulates all_data (m : gmap string string) n :
  load_tags_mapping (Some all_data) m !! n
  = match tags_listed all_data n with
    | [] => m !! n
    | tags =>
        Some (match m !! n with
              | Some old => old +:+ ", " +:+ Py.join ", " tags
              | None => Py.join ", " tags
              end)
    end.
Proof.
  rewrite load_tags_mapping_lookup.
  destruct (tags_listed all_data n) as [|t tags] eqn:E; [done|].
  destruct (m !! n) as [old|].
  - by apply append_tags_some.
  - by apply append_tags_none.
Qed.

Lemma lower_ascii_idempotent c :
  Py.lower_ascii (Py.lower_ascii c) = Py.lower_ascii c.
Proof. by destruct c as [[] [] [] [] [] [] [] []]. Qed.

Lemma lower_idempotent s : Py.lower (Py.lower s) = Py.lower s.
Proof.
  induction s as [|c s IH]; [done|].
  simpl. by rewrite lower_ascii_idempotent, IH.
Qed.

Lemma lower_truthy s : Py.truthy (Py.lower s) = Py.truthy s.
Proof. by destruct s. Qed.

Lemma join_nonempty sep t tags :
  Py.truthy t = true → Py.join sep (t :: tags) ≠ EmptyString.
Proof. intros Ht. destruct t; [done|]. by destruct tags. Qed.

(** The tags listed for an identity are never blank, and an identity with a
    tag is the lower-cased trimmed text of some non-blank cell. *)
Lemma tags_listed_elements all_data n t :
  In t (tags_listed all_data n) →
  Py.truthy t = true
  ∧ ∃ cell, Py.truthy (Py.strip cell) = true ∧ n = Py.lower (Py.strip cell).
Proof.
  unfold tags_listed. intros Hin.
  apply in_flat_map in Hin as ([c tag] & _ & Hin).
  unfold tag_hits in Hin. simpl in Hin.
  destruct (Py.truthy (Py.strip tag)) eqn:Ht; [|done].
  apply in_flat_map in Hin as (row & _ & Hin).
  unfold cell_hits, holds_identity in Hin.
  destruct (row !! c) as [cell|]; [|done].
  destruct (Py.truthy (Py.strip cell)) eqn:Hc; [|done].
  simpl in Hin. case_bool_decide as Hn; [|done].
  destruct Hin as [<- | []]. split; [done|]. by exists cell.
Qed.

(** X17.  Every entry of a mapping built from nothing can be looked up:
    its key is not empty and is its own lower-casing, so that
    [get_tags_for_nickname] on the key returns the entry; and the entry is
    never the empty string. *)
Theorem load_tags_mapping_entries all_data k v :
  load_tags_mapping (Some all_data) ∅ !! k = Some v →
  k ≠ EmptyString
  ∧ Py.lower k = k
  ∧ v ≠ EmptyString
  ∧ get_tags_for_nickname (load_tags_mapping (Some all_data) ∅) k = v.
Proof.
  intros Hk. pose proof Hk as Hv.
  rewrite load_tags_mapping_lookup, lookup_empty in Hv.
  destruct (tags_listed all_data k) as [|t tags] eqn:E; [done|].
  destruct (tags_listed_elements all_data k t) as (Ht & cell & Hc & ->);
    [rewrite E; by left|].
  rewrite append_tags_none in Hv by done. injection Hv as <-.
  split; [|split; [|split]].
  - intros H0. rewrite <- lower_truthy, H0 in Hc. done.
  - apply lower_idempotent.
  - by apply join_nonempty.
  - unfold get_tags_for_nickname. by rewrite lower_idempotent, Hk.
Qed.

(** ** Target selection *)

Lemma select_target_step targets idx row :
  select_target targets (idx, row)
  = targets ++ (if eligible row then [target_of idx row] else []).
Proof.
  unfold select_target, eligible, target_of.
  destruct row as [|c0 [|c1 [|c2 [|c3 row]]]]; simpl;
    try (by rewrite app_nil_r);
    destruct (Py.truthy (Py.strip c0)); simpl; try (by rewrite app_nil_r);
    case_bool_decide; simpl; try done; by rewrite app_nil_r.
Qed.

Lemma foldl_select_target (l : list (nat * list string)) : ∀ targets,
  foldl select_target targets l
  = targets ++ omap (λ c : nat * list string,
                       if eligible c.2 then Some (target_of c.1 c.2) else None) l.
Proof.
  induction l as [|[idx row] l IH]; intros targets; cbn [foldl].
  - by rewrite app_nil_r.
  - rewrite IH, select_target_step, <- app_assoc. f_equal.
    csimpl. by destruct (eligible row).
Qed.

Lemma get_target_nicknames_eligible MAX all_values :
  get_target_nicknames MAX all_values
  = if (0 <? MAX)%Z then take (Z.to_nat MAX) (eligible_targets all_values)
    else eligible_targets all_values.
Proof.
  unfold get_target_nicknames, eligible_targets.
  by rewrite foldl_select_target.
Qed.

Lemma enumerate_from_snoc {A} start (l : list A) x :
  enumerate_from start (l ++ [x])
  = enumerate_from start l ++ [(start + length l, x)].
Proof.
  unfold enumerate_from. rewrite imap_app. simpl. by rewrite Nat.add_0_r.
Qed.

Lemma enumerate_from_elem {A} start (l : list A) idx x :
  (idx, x) ∈ enumerate_from start l
  ↔ start ≤ idx ∧ l !! (idx - start) = Some x.
Proof.
  unfold enumerate_from. rewrite elem_of_lookup_imap. split.
  - intros (i & y & [= -> ->] & Hl). split; [lia|].
    by replace (start + i - start) with i by lia.
  - intros [Hle Hl]. exists (idx - start), x. split; [|done].
    f_equal. lia.
Qed.

(** Where a selected target comes from. *)
Lemma eligible_targets_elem all_values t :
  t ∈ eligible_targets all_values
  ↔ ∃ row, 2 ≤ target_row t
           ∧ all_values !! (target_row t - 1) = Some row
           ∧ eligible row = true
           ∧ t = target_of (target_row t) row.
Proof.
  unfold eligible_targets. rewrite list_elem_of_omap. split.
  - intros ([idx row] & Hin & Ht). simpl in Ht.
    destruct (eligible row) eqn:He; [|done]. injection Ht as <-. simpl.
    apply enumerate_from_elem in Hin as [Hle Hrow].
    rewrite lookup_drop in Hrow. exists row. split; [done|].
    split; [by replace (idx - 1) with (1 + (idx - 2)) by lia|]. done.
  - intros (row & Hle & Hrow & He & Ht).
    exists (target_row t, row). simpl. rewrite He. split; [|by rewrite Ht at 2].
    apply enumerate_from_elem. split; [done|].
    rewrite lookup_drop. by replace (1 + (target_row t - 2)) with (target_row t - 1) by lia.
Qed.

Lemma numbered_targets_sorted (l : list (list string)) start :
  let ts := omap (λ c : nat * list string,
                    if eligible c.2 then Some (target_of c.1 c.2) else None)
                 (enumerate_from start l) in
  StronglySorted row_before ts
  ∧ ∀ t, t ∈ ts → start ≤ target_row t < start + length l.
Proof.
  induction l as [|row l IH] using rev_ind; simpl.
  - split; [constructor|]. intros t Ht. by apply elem_of_nil in Ht.
  - destruct IH as [IHs IHb].
    rewrite enumerate_from_snoc, omap_app, length_app. simpl.
    split.
    + apply StronglySorted_app_2; [|done|].
      * intros t1 t2 H1 H2. apply IHb in H1.
        destruct (eligible row); [|by apply elem_of_nil in H2].
        apply list_elem_of_singleton in H2 as ->. unfold row_before. simpl. lia.
      * destruct (eligible row); repeat constructor.
    + intros t Ht. apply elem_of_app in Ht as [Ht | Ht].
      * apply IHb in Ht. lia.
      * destruct (eligible row); [|by apply elem_of_nil in Ht].
        apply list_elem_of_singleton in Ht as ->. simpl. lia.
Qed.

Lemma StronglySorted_take {A} (R : relation A) n (l : list A) :
  StronglySorted R l → StronglySorted R (take n l).
Proof.
  intros Hs. rewrite <- (take_drop n l) in Hs.
  by apply StronglySorted_app_1_l in Hs.
Qed.

(** X18.  [get_target_nicknames] returns its targets in table order, the
    row numbers strictly increasing; with a positive cap it returns at most
    that many, and they are the first ones: the capped list is a prefix of
    the uncapped one. *)
Theorem get_target_nicknames_order MAX all_values :
  StronglySorted row_before (get_target_nicknames MAX all_values)
  ∧ ((0 < MAX)%Z →
     length (get_target_nicknames MAX all_values) ≤ Z.to_nat MAX)
  ∧ get_target_nicknames MAX all_values
    `prefix_of` get_target_nicknames 0 all_values.
Proof.
  rewrite !get_target_nicknames_eligible. simpl.
  destruct (numbered_targets_sorted (drop 1 all_values) 2) as [Hs _].
  fold (eligible_targets all_values) in Hs.
  destruct (0 <? MAX)%Z eqn:Hmax.
  - split; [by apply StronglySorted_take|]. split.
    + intros _. rewrite length_take. lia.
    + apply prefix_take.
  - split; [done|]. split; [|done].
    intros Hpos. apply Z.ltb_ge in Hmax. lia.
Qed.

(** X19.  Every target returned stands for an eligible row below the
    header: a row whose first cell, trimmed, is not empty and whose second
    cell, trimmed and lower-cased, is a pending marker.  The target carries
    that trimmed nickname, the 1-based position of the row, and as source
    the trimmed fourth cell, or "Manual" when the row has no fourth cell. *)
Theorem get_target_nicknames_sound MAX all_values t :
  t ∈ get_target_nicknames MAX all_values →
  ∃ row, 2 ≤ target_row t
         ∧ all_values !! (target_row t - 1) = Some row
         ∧ eligible row = true
         ∧ target_nickname t = Py.strip (default EmptyString (row !! 0))
         ∧ target_nickname t ≠ EmptyString
         ∧ target_source t
           = match row !! 3 with Some cell => Py.strip cell | None => "Manual" end.
Proof.
  rewrite get_target_nicknames_eligible. intros Ht.
  assert (Hin : t ∈ eligible_targets all_values).
  { destruct (0 <? MAX)%Z; [|done].
    eapply elem_of_sublist; [exact Ht | apply sublist_take]. }
  apply eligible_targets_elem in Hin as (row & Hle & Hrow & He & Heq).
  exists row. rewrite Heq. simpl. repeat split; try done.
  unfold eligible in He. apply andb_true_iff in He as [He _].
  intros H0. rewrite H0 in He. done.
Qed.

(** X20.  Without a cap (zero or negative) no eligible row is left out:
    the targets returned are exactly those of the eligible rows below the
    header. *)
Theorem get_target_nicknames_complete MAX all_values t :
  (MAX ≤ 0)%Z →
  t ∈ get_target_nicknames MAX all_values
  ↔ ∃ row, 2 ≤ target_row t
           ∧ all_values !! (target_row t - 1) = Some row
           ∧ eligible row = true
           ∧ t = target_of (target_row t) row.
Proof.
  intros Hmax. rewrite get_target_nicknames_eligible.
  destruct (0 <? MAX)%Z eqn:E; [apply Z.ltb_lt in E; lia|].
  apply eligible_targets_elem.
Qed.

(** ** The Target queue and the Dashboard *)

Lemma rs_set_faults_id s : rs_set_faults (rs_faults s) s = s.
Proof. by destruct s. Qed.

Lemma sheet_call_cases effect s :
  (∃ plan, sheet_call effect s = (effect (rs_set_faults plan s), inl tt))
  ∨ (∃ plan e, sheet_call effect s = (rs_set_faults plan s, inr e)).
Proof.
  unfold sheet_call. destruct (rs_faults s) as [|[e|] plan] eqn:Hf.
  - left. exists (rs_faults s). by rewrite rs_set_faults_id.
  - right. by exists plan, e.
  - left. by exists plan.
Qed.

Lemma safe_update_loop_sheet effect m attempts : ∀ s,
  ∃ plan evs,
    (safe_update_loop (sheet_call effect) m attempts s).1
      = (rs_set_faults plan s, evs)
    ∨ (safe_update_loop (sheet_call effect) m attempts s).1
      = (effect (rs_set_faults plan s), evs).
Proof.
  induction attempts as [|a rest IH]; intros s.
  - exists (rs_faults s), []. left. by rewrite rs_set_faults_id.
  - simpl. destruct (sheet_call_cases effect s) as [(plan & ->) | (plan & e & ->)].
    + exists plan, [Sleep SHEET_WRITE_DELAY]. by right.
    + destruct (is_rate_limit e).
      * destruct (IH (rs_set_faults plan s)) as (plan' & evs & H).
        destruct (safe_update_loop (sheet_call effect) m rest
                    (rs_set_faults plan s)) as [[s'' evs'] r].
        simpl in *. eexists plan', _.
        destruct H as [[= -> ->] | [= -> ->]]; [left | right]; reflexivity.
      * destruct (a =? m - 1).
        -- exists plan, [LogMsg (UpdateFailed m e)]. by left.
        -- apply (IH (rs_set_faults plan s)).
Qed.

(** A worksheet method run through the executor took effect once or not at
    all; besides, only the fault plan and the trace have changed. *)
Lemma run_sheet_update_cases effect s :
  ∃ plan evs,
    run_sheet_update effect s = rs_add_trace evs (rs_set_faults plan s)
    ∨ run_sheet_update effect s = rs_add_trace evs (effect (rs_set_faults plan s)).
Proof.
  unfold run_sheet_update, safe_update.
  destruct (safe_update_loop_sheet effect default_max_retries
              (seq 0 default_max_retries) s) as (plan & evs & H).
  destruct (safe_update_loop (sheet_call effect) default_max_retries
              (seq 0 default_max_retries) s) as [[s' evs'] r].
  simpl in H. exists plan, evs.
  destruct H as [[= -> ->] | [= -> ->]]; [by left | by right].
Qed.

Lemma run_sheet_update_no_fault effect s :
  rs_faults s = [] →
  run_sheet_update effect s = rs_add_trace [Sleep SHEET_WRITE_DELAY] (effect s).
Proof.
  intros Hf. unfold run_sheet_update, safe_update, default_max_retries.
  cbn [seq safe_update_loop]. unfold sheet_call at 1. by rewrite Hf.
Qed.

Lemma run_sheet_update_three_failures effect s e1 e2 e3 :
  rs_faults s = [Some e1; Some e2; Some e3] →
  is_rate_limit e1 = false → is_rate_limit e2 = false →
  is_rate_limit e3 = false →
  run_sheet_update effect s
  = rs_add_trace [LogMsg (UpdateFailed default_max_retries e3)]
      (rs_set_faults [] s).
Proof.
  intros Hf H1 H2 H3.
  unfold run_sheet_update, safe_update, default_max_retries.
  cbn [seq safe_update_loop]. unfold sheet_call at 1. rewrite Hf, H1.
  cbn [Nat.eqb Nat.sub]. cbn [safe_update_loop].
  unfold sheet_call at 1. cbn [rs_faults rs_set_faults]. rewrite H2.
  cbn [Nat.eqb Nat.sub]. cbn [safe_update_loop].
  unfold sheet_call at 1. cbn [rs_faults rs_set_faults]. rewrite H3.
  reflexivity.
Qed.

(** X21.  [update_target_status] never changes a row of the Target table
    and writes nothing but the status into cell B and the remarks into cell
    C of the given row, in that order.  The two writes are independent:
    with nothing left in the fault plan both are made; when the first is
    given up on after three plain failures the remarks are written all the
    same, without the status. *)
Theorem update_target_status_cells row_num status remarks target_sheet :
  let sheet' := update_target_status row_num status remarks target_sheet in
  rs_rows sheet' = rs_rows target_sheet
  ∧ (∃ added, rs_cells sheet' = rs_cells target_sheet ++ added
              ∧ added `sublist_of` [("B", row_num, status); ("C", row_num, remarks)])
  ∧ (rs_faults target_sheet = [] →
     rs_cells sheet'
     = rs_cells target_sheet ++ [("B", row_num, status); ("C", row_num, remarks)])
  ∧ (∀ e1 e2 e3,
       rs_faults target_sheet = [Some e1; Some e2; Some e3] →
       is_rate_limit e1 = false → is_rate_limit e2 = false →
       is_rate_limit e3 = false →
       rs_cells sheet' = rs_cells target_sheet ++ [("C", row_num, remarks)]).
Proof.
  simpl. unfold update_target_status.
  split; [|split; [|split]].
  - destruct (run_sheet_update_cases (rs_update ("B", row_num) status) target_sheet)
      as (p1 & v1 & [-> | ->]);
    match goal with
    | |- context [run_sheet_update ?f ?s] =>
        destruct (run_sheet_update_cases f s) as (p2 & v2 & [-> | ->])
    end; done.
  - destruct (run_sheet_update_cases (rs_update ("B", row_num) status) target_sheet)
      as (p1 & v1 & [-> | ->]);
    match goal with
    | |- context [run_sheet_update ?f ?s] =>
        destruct (run_sheet_update_cases f s) as (p2 & v2 & [-> | ->])
    end; simpl.
    + exists []. split; [by rewrite app_nil_r | apply sublist_nil_l].
    + eexists [_]. split; [done|]. apply sublist_cons. by apply sublist_skip.
    + eexists [_]. split; [done|]. apply sublist_skip, sublist_nil_l.
    + eexists [_; _]. split; [by rewrite <- app_assoc | done].
  - intros Hf.
    rewrite (run_sheet_update_no_fault _ target_sheet Hf).
    rewrite run_sheet_update_no_fault by done. simpl. by rewrite <- app_assoc.
  - intros e1 e2 e3 Hf H1 H2 H3.
    rewrite (run_sheet_update_three_failures _ target_sheet e1 e2 e3) by done.
    by rewrite run_sheet_update_no_fault.
Qed.

(** X22.  With the expected header in place, [update_dashboard] never
    clears the Dashboard: the rows it held are kept, and the row of the run,
    eight cells like the header, is appended after them, always so when
    nothing is left in the fault plan. *)
Theorem update_dashboard_keeps_history metrics sheet :
  rs_rows sheet !! 0 = Some expected_headers →
  ∃ sheet',
    update_dashboard metrics (Some sheet) = Some sheet'
    ∧ (rs_rows sheet' = rs_rows sheet
       ∨ rs_rows sheet' = rs_rows sheet ++ [dashboard_row metrics])
    ∧ (rs_faults sheet = [] →
       rs_rows sheet' = rs_rows sheet ++ [dashboard_row metrics])
    ∧ rs_formats sheet' = rs_formats sheet
    ∧ length (dashboard_row metrics) = length expected_headers.
Proof.
  intros Hhead. unfold update_dashboard.
  assert (Hne : rs_rows sheet ≠ []) by (intros H0; by rewrite H0 in Hhead).
  rewrite bool_decide_eq_false_2 by done.
  rewrite bool_decide_eq_true_2 by done. simpl.
  eexists. split; [reflexivity|].
  split; [|split; [|split; [|done]]].
  - destruct (run_sheet_update_cases (rs_append_row (dashboard_row metrics)) sheet)
      as (p & v & [-> | ->]); [by left | by right].
  - intros Hf. by rewrite run_sheet_update_no_fault.
  - by destruct (run_sheet_update_cases (rs_append_row (dashboard_row metrics)) sheet)
      as (p & v & [-> | ->]).
Qed.

(** X23.  Without the expected header (an empty table included),
    [update_dashboard] starts the Dashboard afresh: with nothing left in
    the fault plan, whatever rows it held are gone and it holds the header
    and the row of the run, the header range having been formatted. *)
Theorem update_dashboard_resets metrics sheet :
  rs_rows sheet !! 0 ≠ Some expected_headers →
  rs_faults sheet = [] →
  ∃ sheet',
    update_dashboard metrics (Some sheet) = Some sheet'
    ∧ rs_rows sheet' = [expected_headers; dashboard_row metrics]
    ∧ rs_cells sheet' = []
    ∧ rs_formats sheet' = rs_formats sheet ++ ["A1:H1"].
Proof.
  intros Hhead Hf. unfold update_dashboard.
  assert (Hcond : bool_decide (rs_rows sheet = [])
                  || negb (bool_decide (rs_rows sheet !! 0 = Some expected_headers))
                  = true).
  { rewrite (bool_decide_eq_false_2 _ Hhead). simpl. apply orb_true_r. }
  rewrite Hcond.
  eexists. split; [reflexivity|].
  rewrite (run_sheet_update_no_fault rs_clear sheet Hf).
  rewrite (run_sheet_update_no_fault (rs_append_row expected_headers)) by done.
  rewrite (run_sheet_update_no_fault (rs_format "A1:H1")) by done.
  rewrite run_sheet_update_no_fault by done.
  done.
Qed.

(** X24.  [format_profiles_sheet] formats without clearing data: the
    rows and the cells of the sheet are as before whatever the remote store
    does, and nothing is formatted but the whole sheet and the header row,
    in that order. *)
Theorem format_profiles_sheet_keeps_data profiles :
  let profiles' := format_profiles_sheet profiles in
  rs_rows profiles' = rs_rows profiles
  ∧ rs_cells profiles' = rs_cells profiles
  ∧ (∃ added, rs_formats profiles' = rs_formats profiles ++ added
              ∧ added `sublist_of` ["A:R"; "A1:R1"])
  ∧ (rs_faults profiles = [] →
     rs_formats profiles' = rs_formats profiles ++ ["A:R"; "A1:R1"]).
Proof.
  simpl. unfold format_profiles_sheet.
  split; [|split; [|split]].
  - destruct (run_sheet_update_cases (rs_format "A:R") profiles)
      as (p1 & v1 & [-> | ->]);
    match goal with
    | |- context [run_sheet_update ?f ?s] =>
        destruct (run_sheet_update_cases f s) as (p2 & v2 & [-> | ->])
    end; done.
  - destruct (run_sheet_update_cases (rs_format "A:R") profiles)
      as (p1 & v1 & [-> | ->]);
    match goal with
    | |- context [run_sheet_update ?f ?s] =>
        destruct (run_sheet_update_cases f s) as (p2 & v2 & [-> | ->])
    end; done.
  - destruct (run_sheet_update_cases (rs_format "A:R") profiles)
      as (p1 & v1 & [-> | ->]);
    match goal with
    | |- context [run_sheet_update ?f ?s] =>
        destruct (run_sheet_update_cases f s) as (p2 & v2 & [-> | ->])
    end; simpl.
    + exists []. split; [by rewrite app_nil_r | apply sublist_nil_l].
    + eexists [_]. split; [done|]. apply sublist_cons. by apply sublist_skip.
    + eexists [_]. split; [done|]. apply sublist_skip, sublist_nil_l.
    + eexists [_; _]. split; [by rewrite <- app_assoc | done].
  - intros Hf.
    rewrite (run_sheet_update_no_fault _ profiles Hf).
    rewrite run_sheet_update_no_fault by done. simpl. by rewrite <- app_assoc.
Qed.

(** ** Time spent in backoff by a call *)

Lemma backoff_sleeps_app evs1 evs2 :
  backoff_sleeps (evs1 ++ evs2) = backoff_sleeps evs1 ++ backoff_sleeps evs2.
Proof. unfold backoff_sleeps. apply omap_app. Qed.

Lemma backoff_within_refl self : backoff_within 0 self self.
Proof. exists []. by rewrite app_nil_r. Qed.

Lemma backoff_within_trans a b s1 s2 s3 :
  backoff_within a s1 s2 → backoff_within b s2 s3 →
  backoff_within (a + b) s1 s3.
Proof.
  intros (e1 & T1 & B1) (e2 & T2 & B2). exists (e1 ++ e2).
  split; [by rewrite T2, T1, app_assoc|].
  rewrite backoff_sleeps_app, sum_list_with_app. lia.
Qed.

Lemma backoff_within_weaken a b s1 s2 :
  a ≤ b → backoff_within a s1 s2 → backoff_within b s1 s2.
Proof. intros Hle (e & T & B). exists e. split; [done | lia]. Qed.

Lemma run_safe_update_backoff effect self :
  (∀ s, trace (effect s) = trace s) →
  backoff_within 30 self (run_safe_update (remote_call effect) self).1.
Proof.
  intros Heff. unfold run_safe_update.
  pose proof (safe_update_loop_backoff (remote_call effect) default_max_retries
                (seq 0 default_max_retries) self) as [Hsum _].
  pose proof (sum_backoff_seq default_max_retries) as Hclosed.
  destruct (safe_update_loop_remote effect default_max_retries
              (seq 0 default_max_retries) self) as (plan & evs & H).
  unfold safe_update.
  destruct (safe_update_loop (remote_call effect) default_max_retries
              (seq 0 default_max_retries) self) as [[s' evs'] r].
  simpl in *. exists evs'. unfold default_max_retries in *.
  split; [|lia].
  destruct H as [[= -> -> _] | [= -> -> _]]; simpl; [done|].
  by rewrite Heff.
Qed.

Section Backoff.
Variable cs : core_scraper.

Lemma apply_link_formula_backoff row_idx data self col_name :
  backoff_within 30 self (apply_link_formula cs row_idx data self col_name).
Proof.
  unfold apply_link_formula. destruct (Py.truthy_get data col_name).
  - by apply run_safe_update_backoff.
  - eapply backoff_within_weaken; [|apply backoff_within_refl]. lia.
Qed.

Lemma link_formulas_backoff row_idx data cols : ∀ self,
  backoff_within (30 * length cols) self
    (foldl (apply_link_formula cs row_idx data) self cols).
Proof.
  induction cols as [|col cols IH]; intros self.
  - apply backoff_within_refl.
  - cbn [foldl length].
    replace (30 * S (length cols)) with (30 + 30 * length cols) by lia.
    eapply backoff_within_trans; [apply apply_link_formula_backoff | apply IH].
Qed.

Lemma log_change_backoff nickname change_type fields before after self :
  backoff_within 30 self
    (log_change cs nickname change_type fields before after self).
Proof.
  unfold log_change. destruct (log_sheet self).
  - by apply run_safe_update_backoff.
  - eapply backoff_within_weaken; [|apply backoff_within_refl]. lia.
Qed.

Lemma set_existing_profiles_backoff n idx self self' :
  backoff_within n self self' →
  backoff_within n self (set_existing_profiles idx self').
Proof. intros (e & T & B). by exists e. Qed.

(** X25.  However the remote store behaves, one call of [write_profile]
    sleeps in backoff for at most thirty seconds per remote operation it can
    make: the append, one formula per link column and the log row. *)
Theorem write_profile_backoff_bound self data :
  backoff_within (30 * (length (LINK_COLUMNS cs) + 2)) self
    (write_profile cs self data).1.1.
Proof.
  assert (Hsteps : ∀ s1 : SheetsManager,
    backoff_within 30 self s1 →
    ∀ new_row d,
      backoff_within (30 + 30 * length (LINK_COLUMNS cs)) self
        (apply_link_formulas cs new_row d s1)).
  { intros s1 H1 new_row d.
    eapply backoff_within_trans; [exact H1 | apply link_formulas_backoff]. }
  replace (30 * (length (LINK_COLUMNS cs) + 2))
    with (30 + 30 * length (LINK_COLUMNS cs) + 30) by lia.
  destruct (Py.truthy (nickname_of data)) eqn:Hn.
  - destruct (existing_profiles self !! identity_of data) as [existing|] eqn:Hidx.
    + destruct (changed_indices cs (before_snapshot cs (entry_data existing))
                  (projected cs self data)) as [|i0 rest] eqn:Hci.
      * rewrite (write_profile_unchanged cs self data existing Hn Hidx Hci).
        eapply backoff_within_weaken; [|apply log_change_backoff]. lia.
      * rewrite (write_profile_updated_state cs self data existing Hn Hidx)
          by (by rewrite Hci).
        cbv zeta. apply set_existing_profiles_backoff.
        eapply backoff_within_trans; [|apply log_change_backoff].
        apply Hsteps. by apply run_safe_update_backoff.
    + rewrite (write_profile_new_state cs self data Hn Hidx). cbv zeta.
      eapply backoff_within_trans; [|apply log_change_backoff].
      apply set_existing_profiles_backoff.
      apply Hsteps. by apply run_safe_update_backoff.
  - rewrite (write_profile_missing cs self data Hn).
    eapply backoff_within_weaken; [|apply backoff_within_refl]. lia.
Qed.

(** ** The index against a reload *)

Lemma load_existing_profiles_snoc rows row :
  rows ≠ [] →
  load_existing_profiles (rows ++ [row])
  = index_row (load_existing_profiles rows) (length rows + 1, row).
Proof.
  intros Hne. unfold load_existing_profiles.
  destruct rows as [|header rows]; [done|].
  cbn [app drop length]. rewrite !drop_0, enumerate_from_snoc, foldl_snoc.
  do 2 f_equal. lia.
Qed.

(** X26.  The index kept by [write_profile] stays what a reload would
    give.  For a schema whose second column is NICK NAME and a cleaning
    function that leaves the trimmed text as it is: when the index equals
    what [load_existing_profiles] computes from the rows of a table that
    has its header, the same holds after any call whose append, if it gets
    that far, takes effect. *)
Theorem write_profile_keeps_sync self data :
  COLUMN_ORDER cs !! 1 = Some "NICK NAME" →
  (∀ x, Py.strip (clean_data cs x) = Py.strip x) →
  ws_rows (profiles_sheet self) ≠ [] →
  index_synced self →
  (reaches_append cs self data → append_outcome cs self data = Some tt) →
  index_synced (write_profile cs self data).1.1.
Proof.
  intros Hcol Hclean Hrows Hsync Hok. unfold index_synced in *.
  assert (Hid : has_nickname data →
                row_identity (projected cs self data) = Some (identity_of data)).
  { intros Hn. unfold row_identity, projected.
    rewrite (row_values_lookup cs _ _ _ Hcol). unfold cell_value.
    cbn [String.eqb Ascii.eqb Bool.eqb]. 
    assert (Hget : Py.get_or_empty (tagged self data) "NICK NAME"
                   = Py.get_or_empty data "NICK NAME").
    { unfold tagged, Py.get_or_empty. by rewrite lookup_insert_ne. }
    rewrite Hget, Hclean.
    change (Py.strip (Py.get_or_empty data "NICK NAME")) with (nickname_of data).
    rewrite lower_truthy, Hn. done. }
  assert (Happ : ∀ self', has_nickname data →
    match existing_profiles self !! identity_of data with
    | None => True
    | Some existing =>
        changed_indices cs (before_snapshot cs (entry_data existing))
                        (projected cs self data) ≠ []
    end →
    append_effects cs self data self' →
    existing_profiles self'
    = load_existing_profiles (ws_rows (profiles_sheet self'))).
  { intros self' Hn Hreach (R & _ & E & _).
    rewrite appended_rows, (Hok (conj Hn Hreach)) in R, E.
    rewrite E, R, load_existing_profiles_snoc, index_row_identity by done.
    rewrite (Hid Hn), length_app, <- Hsync. done. }
  destruct (write_profile_cases cs self data)
    as [(Hn & ->) | [(Hn & existing & self' & Hidx & Hci & -> & P & E & _)
       | [(Hn & existing & self' & Hidx & Hci & -> & Ha)
       | (Hn & Hidx & self' & -> & Ha)]]]; simpl.
  - done.
  - by rewrite E, P.
  - apply Happ; [done | by rewrite Hidx | done].
  - apply Happ; [done | by rewrite Hidx | done].
Qed.

End Backoff.

(** ** Trimming twice *)

Lemma rstrip_idempotent s : Py.rstrip (Py.rstrip s) = Py.rstrip s.
Proof.
  induction s as [|c s IH]; [done|].
  cbn [Py.rstrip].
  destruct (Py.isspace c && negb (Py.truthy (Py.rstrip s))) eqn:E; [done|].
  cbn [Py.rstrip]. by rewrite IH, E.
Qed.

Lemma lstrip_head s :
  Py.lstrip s = EmptyString
  ∨ ∃ c t, Py.lstrip s = String c t ∧ Py.isspace c = false.
Proof.
  induction s as [|c s IH]; [by left|].
  cbn [Py.lstrip]. destruct (Py.isspace c) eqn:E; [exact IH|].
  right. by exists c, s.
Qed.

Lemma strip_idempotent s : Py.strip (Py.strip s) = Py.strip s.
Proof.
  unfold Py.strip.
  destruct (lstrip_head s) as [-> | (c & t & -> & Hc)]; [done|].
  cbn [Py.rstrip]. rewrite Hc. cbn [andb Py.lstrip]. rewrite Hc.
  cbn [Py.rstrip]. rewrite Hc. cbn [andb]. by rewrite rstrip_idempotent.
Qed.

(** ** Instances on the sample data *)

Lemma write_profile_keeps_coherence_witness :
  index_coherent
    (write_profile sample_scraper (sample_manager [Some "429"]) sample_record).1.1.
Proof.
  apply (write_profile_keeps_coherence sample_scraper
           (sample_manager [Some "429"]) sample_record).
  - intros n e He. simpl in He. by rewrite lookup_empty in He.
  - intros _. vm_compute. reflexivity.
Defined.

Lemma write_profile_ignores_given_tags_witness :
  write_profile sample_scraper (sample_manager [])
    (<["TAGS" := "made up"]> sample_record)
  = write_profile sample_scraper (sample_manager []) sample_record.
Proof.
  apply (write_profile_ignores_given_tags sample_scraper).
  vm_compute. reflexivity.
Defined.

Lemma apply_link_formulas_no_fault_witness :
  let self' := apply_link_formulas sample_scraper 2 sample_record (sample_manager []) in
  ws_formulas (profiles_sheet self')
  = ws_formulas (profiles_sheet (sample_manager []))
    ++ link_cells sample_scraper 2 sample_record
  ∧ ws_rows (profiles_sheet self') = ws_rows (profiles_sheet (sample_manager []))
  ∧ faults self' = [].
Proof.
  apply (apply_link_formulas_no_fault sample_scraper 2 sample_record
           (sample_manager [])).
  reflexivity.
Defined.


Lemma write_profile_failed_append_formulas_witness :
  let self := sample_manager three_failures in
  let self' := (write_profile sample_scraper self sample_record).1.1 in
  ws_rows (profiles_sheet self') = ws_rows (profiles_sheet self)
  ∧ ws_formulas (profiles_sheet self')
    = ws_formulas (profiles_sheet self)
      ++ link_cells sample_scraper (length (ws_rows (profiles_sheet self)))
           (tagged self sample_record).
Proof.
  apply (write_profile_failed_append_formulas sample_scraper
           (sample_manager three_failures) sample_record).
  - split; [vm_compute; reflexivity | vm_compute; exact I].
  - vm_compute. reflexivity.
  - vm_compute. reflexivity.
Defined.

Lemma load_existing_profiles_coherent_witness : index_coherent bob_reloaded.
Proof. apply (load_existing_profiles_coherent bob_reloaded). reflexivity. Defined.

Lemma load_tags_mapping_entries_witness :
  "alice" ≠ EmptyString
  ∧ Py.lower "alice" = "alice"
  ∧ "VIP, Flagged" ≠ EmptyString
  ∧ get_tags_for_nickname (load_tags_mapping (Some sample_tags) ∅) "alice"
    = "VIP, Flagged".
Proof.
  apply (load_tags_mapping_entries sample_tags "alice" "VIP, Flagged").
  vm_compute. reflexivity.
Defined.

Lemma get_target_nicknames_sound_witness :
  ∃ row, 2 ≤ target_row sample_target
         ∧ sample_target_table !! (target_row sample_target - 1) = Some row
         ∧ eligible row = true
         ∧ target_nickname sample_target = Py.strip (default EmptyString (row !! 0))
         ∧ target_nickname sample_target ≠ EmptyString
         ∧ target_source sample_target
           = match row !! 3 with Some cell => Py.strip cell | None => "Manual" end.
Proof.
  apply (get_target_nicknames_sound 1 sample_target_table sample_target).
  vm_compute. apply list_elem_of_here.
Defined.

Lemma get_target_nicknames_complete_witness :
  sample_target ∈ get_target_nicknames 0 sample_target_table
  ↔ ∃ row, 2 ≤ target_row sample_target
           ∧ sample_target_table !! (target_row sample_target - 1) = Some row
           ∧ eligible row = true
           ∧ sample_target = target_of (target_row sample_target) row.
Proof.
  apply (get_target_nicknames_complete 0 sample_target_table sample_target).
  lia.
Defined.

Lemma update_dashboard_keeps_history_witness :
  ∃ sheet',
    update_dashboard sample_metrics (Some (sample_dashboard [Some "quota"]))
    = Some sheet'
    ∧ (rs_rows sheet' = rs_rows (sample_dashboard [Some "quota"])
       ∨ rs_rows sheet'
         = rs_rows (sample_dashboard [Some "quota"]) ++ [dashboard_row sample_metrics])
    ∧ (rs_faults (sample_dashboard [Some "quota"]) = [] →
       rs_rows sheet'
       = rs_rows (sample_dashboard [Some "quota"]) ++ [dashboard_row sample_metrics])
    ∧ rs_formats sheet' = rs_formats (sample_dashboard [Some "quota"])
    ∧ length (dashboard_row sample_metrics) = length expected_headers.
Proof.
  apply (update_dashboard_keeps_history sample_metrics
           (sample_dashboard [Some "quota"])).
  reflexivity.
Defined.

Lemma update_dashboard_resets_witness :
  ∃ sheet',
    update_dashboard sample_metrics (Some stale_dashboard) = Some sheet'
    ∧ rs_rows sheet' = [expected_headers; dashboard_row sample_metrics]
    ∧ rs_cells sheet' = []
    ∧ rs_formats sheet' = rs_formats stale_dashboard ++ ["A1:H1"].
Proof.
  apply (update_dashboard_resets sample_metrics stale_dashboard).
  - vm_compute. discriminate.
  - reflexivity.
Defined.

Lemma write_profile_keeps_sync_witness :
  index_synced
    (write_profile sample_scraper (sample_manager [Some "429"]) sample_record).1.1.
Proof.
  apply (write_profile_keeps_sync sample_scraper
           (sample_manager [Some "429"]) sample_record).
  - reflexivity.
  - intros x. apply strip_idempotent.
  - discriminate.
  - vm_compute. reflexivity.
  - intros _. vm_compute. reflexivity.
Defined.
